(** * The upload endpoint of functions/api/upload.js

    A shallow embedding of the request handler [onRequestPost] and of its
    helpers [githubHeaders], [successResponse], [errorResponse],
    [ensureRepo] and [uploadFile], followed by the properties of the handler.

    The handler is asynchronous glue around [fetch].  Every [await] in it is
    sequential, so the code is embedded in a state-and-exception monad: the
    state is the list of outbound requests issued so far, an exception is a
    JavaScript [throw].  The network is an oracle that answers a request
    knowing the requests that preceded it.  Console output is not part of the
    model. *)

From Stdlib Require Import String Ascii List Bool NArith DecimalString Lia.
Import ListNotations.
Open Scope string_scope.

(** ** Exceptions and results *)

(** A thrown [Error] object; the handler only ever reads [error.message]. *)
Record Exn := { exn_name : string; exn_message : string }.

Inductive result (A : Type) : Type :=
| Ok (a : A)
| Throw (e : Exn).
Arguments Ok {A} a.
Arguments Throw {A} e.

(** ** JSON values

    What [response.json()] yields.  A number is held as the text that
    ECMAScript [ToString] gives for it, which is all the handler can observe
    of a number; an object holds its own properties, each key once. *)
#[warnings="-register-all"]
Inductive json : Type :=
| JNull
| JBool (b : bool)
| JNum (text : string)
| JStr (s : string)
| JArr (items : list json)
| JObj (members : list (string * json)).

(** A JavaScript value read out of parsed JSON: [None] is [undefined]. *)
Definition value := option json.

(** ** Form fields

    [formData.get(name)] is [null], a string or a [File]. *)
Inductive FormEntry : Type :=
| EString (s : string)
| EFile.

Definition FormValue := option FormEntry.
Definition FormData := list (string * FormEntry).

(** ** The engine

    Built-ins whose results depend on the engine: case mapping, base64
    decoding, and the [TypeError]s it raises on its own. *)
Inductive Fault : Type :=
| ReadOfNull (property : string)
| ReadOfUndefined (property : string)
| NotAFunction (property : string)
| NoPrimitive.

Class Runtime : Type := {
  toLowerCase : string -> string;
  toUpperCase : string -> string;
  atob : string -> result string;
  engine_error : Fault -> Exn
}.

(** ** Requests and responses of [fetch] *)

Inductive Method : Type := GET | POST | PUT.

(** The object passed to [JSON.stringify] for the repository creation. *)
Record CreateRepo := {
  cr_name : string;
  cr_private : bool;
  cr_description : string;
  cr_auto_init : bool
}.

(** [uploadData]: [ud_sha = None] is the object without a [sha] member. *)
Record UploadData := {
  ud_message : string;
  ud_content : FormValue;
  ud_branch : string;
  ud_sha : value
}.

(** The object posted to the Google Apps Script. *)
Record DrivePayload := {
  dp_class : string;
  dp_date : FormEntry;
  dp_content : string
}.

Inductive Body : Type :=
| NoBody
| BCreateRepo (b : CreateRepo)
| BUpload (b : UploadData)
| BDrive (b : DrivePayload).

Record Request := {
  req_url : string;
  req_method : Method;
  req_headers : list (string * string);
  req_body : Body
}.

(** A response as the handler sees it: [ok], [status], and what reading its
    body gives, as text with [text()] or parsed with [json()].  The handler
    reads the body of a response at most once. *)
Record FetchResponse := {
  ok : bool;
  status : N;
  text_of : result string;
  json_of : result json
}.

(** The network: the answer to a request, given the requests sent before. *)
Definition Network := list Request -> Request -> result FetchResponse.

(** ** The response of the handler *)

Record UploadResult := {
  res_url : value;
  res_sha : value;
  res_path : string
}.

Record SuccessData := {
  sd_message : string;
  sd_github : UploadResult;
  sd_drive : json
}.

(** The object serialised into the response: [{success: true, ...data}] or
    [{success: false, message}]. *)
Inductive ResponseBody : Type :=
| BodySuccess (data : SuccessData)
| BodyFailure (message : string).

Record Response := {
  resp_status : N;
  resp_headers : list (string * string);
  resp_body : ResponseBody
}.

(** ** The invocation context *)

Record Env := {
  GITHUB_TOKEN : option string;
  GITHUB_USER : option string;
  GOOGLE_SCRIPT_URL : option string
}.

(** [ctx_formData] is the outcome of [context.request.formData()];
    [ctx_today] is [new Date().toISOString().split('T')[0]]. *)
Record Context := {
  ctx_env : Env;
  ctx_formData : result FormData;
  ctx_today : string
}.

(** ** JavaScript operators the handler relies on *)

Section Operators.
Context {R : Runtime}.

(** Truthiness of a string, as tested by [!s], [s || d] and [if (s)]. *)
Definition nonempty (s : string) : bool :=
  match s with EmptyString => false | String _ _ => true end.

(** [if (v)] for a value read out of parsed JSON. *)
Definition truthy (v : value) : bool :=
  match v with
  | None => false
  | Some JNull => false
  | Some (JBool b) => b
  | Some (JNum text) => negb (String.eqb text "0")
  | Some (JStr s) => nonempty s
  | Some (JArr _) => true
  | Some (JObj _) => true
  end.

(** [env.NAME] as a condition: unset and empty are both falsy. *)
Definition configured (v : option string) : option string :=
  match v with
  | Some s => if nonempty s then Some s else None
  | None => None
  end.

(** [env.NAME || fallback]. *)
Definition env_or (v : option string) (fallback : string) : string :=
  match configured v with Some s => s | None => fallback end.

(** [formData.get(name)]: the first entry of that name, else [null]. *)
Fixpoint get (formData : FormData) (name : string) : FormValue :=
  match formData with
  | [] => None
  | (k, v) :: rest => if String.eqb k name then Some v else get rest name
  end.

(** [v || fallback] for a form value. *)
Definition form_or (v : FormValue) (fallback : FormEntry) : FormEntry :=
  match v with
  | None => fallback
  | Some (EString s) => if nonempty s then EString s else fallback
  | Some EFile => EFile
  end.

(** [v === s] for a form value [v] and a string literal [s]. *)
Definition strict_eq (v : FormEntry) (s : string) : bool :=
  match v with
  | EString t => String.eqb t s
  | EFile => false
  end.

(** A form value inside a template literal, or converted by [atob]. *)
Definition show (v : FormValue) : string :=
  match v with
  | None => "null"
  | Some (EString s) => s
  | Some EFile => "[object File]"
  end.

(** [v.toLowerCase()] on a form value. *)
Definition call_toLowerCase (v : FormValue) : result string :=
  match v with
  | None => Throw (engine_error (ReadOfNull "toLowerCase"))
  | Some (EString s) => Ok (toLowerCase s)
  | Some EFile => Throw (engine_error (NotAFunction "toLowerCase"))
  end.

(** Own property [key] of a parsed object. *)
Fixpoint member (key : string) (members : list (string * json)) : value :=
  match members with
  | [] => None
  | (k, v) :: rest => if String.eqb k key then Some v else member key rest
  end.

(** [v.key], for a [key] that no prototype defines ([sha], [message],
    [content], [html_url]): it throws on [null] and [undefined], reads the
    own property of an object and is [undefined] on anything else. *)
Definition prop (v : value) (key : string) : result value :=
  match v with
  | None => Throw (engine_error (ReadOfUndefined key))
  | Some JNull => Throw (engine_error (ReadOfNull key))
  | Some (JObj members) => Ok (member key members)
  | Some _ => Ok None
  end.

(** [ToString] on parsed JSON.  An array joins its items with commas, [null]
    items being empty; an object prints as [[object Object]] unless it has an
    own [toString] member, which parsed JSON can only make a non-function, so
    that the conversion finds no primitive. *)
Fixpoint json_to_string (j : json) : result string :=
  match j with
  | JNull => Ok "null"
  | JBool true => Ok "true"
  | JBool false => Ok "false"
  | JNum text => Ok text
  | JStr s => Ok s
  | JArr items =>
      (fix join (l : list json) : result string :=
         match l with
         | [] => Ok EmptyString
         | x :: rest =>
             match
               match x with JNull => Ok EmptyString | _ => json_to_string x end
             with
             | Throw e => Throw e
             | Ok sx =>
                 match rest with
                 | [] => Ok sx
                 | _ :: _ =>
                     match join rest with
                     | Throw e => Throw e
                     | Ok sr => Ok (sx ++ "," ++ sr)
                     end
                 end
             end
         end) items
  | JObj members =>
      match member "toString" members with
      | Some _ => Throw (engine_error NoPrimitive)
      | None => Ok "[object Object]"
      end
  end.

(** A value inside a template literal. *)
Definition interpolate (v : value) : result string :=
  match v with
  | None => Ok "undefined"
  | Some j => json_to_string j
  end.

(** A status code inside a template literal. *)
Definition show_status (n : N) : string :=
  NilEmpty.string_of_uint (N.to_uint n).

End Operators.

(** ** The monad of the handler

    A computation starts from the requests sent so far and ends with a value
    or a thrown exception, and with the requests sent by then.  A request
    sent before a [throw] stays sent. *)

Definition M (A : Type) : Type := list Request -> result A * list Request.

Definition ret {A} (a : A) : M A := fun sent => (Ok a, sent).

Definition throw {A} (e : Exn) : M A := fun sent => (Throw e, sent).

Definition bind {A B} (m : M A) (k : A -> M B) : M B :=
  fun sent =>
    match m sent with
    | (Ok a, sent') => k a sent'
    | (Throw e, sent') => (Throw e, sent')
    end.

(** [try { m } catch (error) { handler }]. *)
Definition try_catch {A} (m : M A) (handler : Exn -> M A) : M A :=
  fun sent =>
    match m sent with
    | (Ok a, sent') => (Ok a, sent')
    | (Throw e, sent') => handler e sent'
    end.

(** An operation of the engine that throws or returns without any request. *)
Definition lift {A} (r : result A) : M A := fun sent => (r, sent).

(** [await fetch(...)]: the request is recorded, the network answers. *)
Definition fetch (net : Network) (request : Request) : M FetchResponse :=
  fun sent => (net sent request, (sent ++ [request])%list).

Declare Scope js_scope.
Delimit Scope js_scope with js.
Notation "x <- m ;; k" := (bind m (fun x => k))
  (at level 61, m at next level, right associativity) : js_scope.
Notation "m ;; k" := (bind m (fun _ => k))
  (at level 61, right associativity) : js_scope.
Open Scope js_scope.

(** ** The source, function by function *)

Section Upload.
Context {R : Runtime}.
Variable net : Network.

Definition githubHeaders (token : string) (includeContentType : bool)
  : list (string * string) :=
  let headers :=
    [ ("Authorization", "token " ++ token);
      ("User-Agent", "LFJC-Portal");
      ("Accept", "application/vnd.github.v3+json") ] in
  if includeContentType
  then (headers ++ [ ("Content-Type", "application/json") ])%list
  else headers.

(** A [Response] built without a [status] has status 200. *)
Definition successResponse (data : SuccessData) : Response :=
  {| resp_status := 200;
     resp_headers :=
       [ ("Content-Type", "application/json");
         ("Access-Control-Allow-Origin", "*") ];
     resp_body := BodySuccess data |}.

Definition errorResponse (message : string) : Response :=
  {| resp_status := 500;
     resp_headers :=
       [ ("Content-Type", "application/json");
         ("Access-Control-Allow-Origin", "*") ];
     resp_body :=
       BodyFailure (if nonempty message then message else "Upload failed") |}.

(** The two shapes of request the handler sends to the hosting API:
    [fetch(url, {headers: githubHeaders(token)})], a GET, and
    [fetch(url, {method, headers: githubHeaders(token, true), body})]. *)
Definition github_get (url token : string) : Request :=
  {| req_url := url;
     req_method := GET;
     req_headers := githubHeaders token false;
     req_body := NoBody |}.

Definition github_send (method : Method) (url token : string) (body : Body)
  : Request :=
  {| req_url := url;
     req_method := method;
     req_headers := githubHeaders token true;
     req_body := body |}.

Definition repoUrl (username repoName : string) : string :=
  "https://api.github.com/repos/" ++ username ++ "/" ++ repoName.

Definition createRepo (repoName : string) : Body :=
  BCreateRepo
    {| cr_name := repoName;
       cr_private := false;
       cr_description := "LFJC Class " ++ toUpperCase repoName;
       cr_auto_init := true |}.

(** The [try] block of [ensureRepo] returns from the function when the
    repository is there; [true] stands for that return, [false] for falling
    out of the block, also through its empty [catch]. *)
Definition ensureRepo (username repoName token : string) : M bool :=
  found <-
    try_catch
      (checkResponse <-
         fetch net (github_get (repoUrl username repoName) token) ;;
       ret (ok checkResponse))
      (fun _ => ret false) ;;
  if found then ret true
  else
    createResponse <-
      fetch net
        (github_send POST "https://api.github.com/user/repos" token
           (createRepo repoName)) ;;
    if negb (ok createResponse)
    then
      error <- lift (json_of createResponse) ;;
      message <- lift (prop (Some error) "message") ;;
      text <- lift (interpolate message) ;;
      throw {| exn_name := "Error";
               exn_message :=
                 "Failed to create repo " ++ repoName ++ ": " ++ text |}
    else ret true.

Definition fileUrl (username repoName filePath : string) : string :=
  "https://api.github.com/repos/" ++ username ++ "/" ++ repoName
    ++ "/contents/" ++ filePath.

(** Lines 177 to 192 of [uploadFile], the block headed "Get SHA if file
    exists": [sha] starts as [null] and is assigned only after a successful
    read whose body parsed; the other two branches only log. *)
Definition checkFile (url token : string) : M value :=
  try_catch
    (checkResponse <- fetch net (github_get url token) ;;
     if ok checkResponse
     then
       fileData <- lift (json_of checkResponse) ;;
       lift (prop (Some fileData) "sha")
     else if N.eqb (status checkResponse) 404
     then ret (Some JNull)
     else ret (Some JNull))
    (fun _ => ret (Some JNull)).

(** Lines 195 to 203: [uploadData], with a [sha] member when [sha] is
    truthy. *)
Definition uploadData (message : string) (content : FormValue) (sha : value)
  : UploadData :=
  {| ud_message := message;
     ud_content := content;
     ud_branch := "main";
     ud_sha := if truthy sha then sha else None |}.

Definition uploadFile
  (username repoName filePath : string) (content : FormValue)
  (token message : string) : M UploadResult :=
  let url := fileUrl username repoName filePath in
  sha <- checkFile url token ;;
  uploadResponse <-
    fetch net
      (github_send PUT url token (BUpload (uploadData message content sha))) ;;
  if negb (ok uploadResponse)
  then
    errorText <- lift (text_of uploadResponse) ;;
    throw {| exn_name := "Error";
             exn_message :=
               "GitHub API error: " ++ show_status (status uploadResponse) |}
  else
    result <- lift (json_of uploadResponse) ;;
    content_ <- lift (prop (Some result) "content") ;;
    html_url <- lift (prop content_ "html_url") ;;
    sha_ <- lift (prop content_ "sha") ;;
    ret {| res_url := html_url; res_sha := sha_; res_path := filePath |}.

(** The request to the Google Apps Script. *)
Definition driveRequest
  (scriptUrl className : string) (date : FormEntry) (decoded : string)
  : Request :=
  {| req_url := scriptUrl;
     req_method := POST;
     req_headers := [ ("Content-Type", "application/json") ];
     req_body :=
       BDrive
         {| dp_class := toUpperCase className;
            dp_date := date;
            dp_content := decoded |} |}.

(** Lines 46 to 63 of [onRequestPost], the block headed "ALSO send to Google
    Drive for PDF creation", with the value it leaves in [driveResult].
    [driveResult] is assigned before the line that logs it, so whatever that
    line does the parsed value is kept; it stays [null] when [atob], [fetch]
    or [json()] throws, and when no script URL is configured. *)
Definition sendToDrive
  (script : option string) (className : string) (date : FormEntry)
  (content : FormValue) : M json :=
  match script with
  | Some scriptUrl =>
      try_catch
        (decoded <- lift (atob (show content)) ;;
         driveResponse <-
           fetch net (driveRequest scriptUrl className date decoded) ;;
         lift (json_of driveResponse))
        (fun _ => ret JNull)
  | None => ret JNull
  end.

(** Lines 4 to 86: the [try] block of [onRequestPost]. *)
Definition tryBlock (context : Context) : M Response :=
  match configured (GITHUB_TOKEN (ctx_env context)) with
  | None => ret (errorResponse "No GitHub token")
  | Some token =>
      let username := env_or (GITHUB_USER (ctx_env context)) "iitjeelf" in
      let script := configured (GOOGLE_SCRIPT_URL (ctx_env context)) in
      formData <- lift (ctx_formData context) ;;
      className <- lift (call_toLowerCase (get formData "class")) ;;
      let filename := get formData "filename" in
      let content := get formData "content" in
      let type := form_or (get formData "type") (EString "question") in
      let date :=
        form_or (get formData "date") (EString (ctx_today context)) in
      ensureRepo username className token ;;
      if strict_eq type "answer"
      then
        let filePath := "answers/answer-key-" ++ show (Some date) ++ ".txt" in
        let message :=
          "Add answer key for " ++ toUpperCase className ++ " - "
            ++ show (Some date) in
        githubResult <-
          uploadFile username className filePath content token message ;;
        driveResult <- sendToDrive script className date content ;;
        ret (successResponse
               {| sd_message := "Uploaded to " ++ toUpperCase className;
                  sd_github := githubResult;
                  sd_drive := driveResult |})
      else
        let filePath := "questions/" ++ show filename in
        let message :=
          "Add question: " ++ show filename ++ " to "
            ++ toUpperCase className in
        githubResult <-
          uploadFile username className filePath content token message ;;
        ret (successResponse
               {| sd_message := "Uploaded to " ++ toUpperCase className;
                  sd_github := githubResult;
                  sd_drive := JNull |})
  end.

Definition onRequestPost (context : Context) : M Response :=
  try_catch (tryBlock context)
    (fun error => ret (errorResponse (exn_message error))).

End Upload.

(** ** Vocabulary of the properties *)

(** The answer to a check that did not see its target: the check threw or
    did not report success. *)
Definition not_found (answer : result FetchResponse) : Prop :=
  match answer with
  | Ok checkResponse => ok checkResponse = false
  | Throw _ => True
  end.

(** The answer to a webhook call that failed: [fetch] threw, or the response
    did not parse as JSON. *)
Definition webhook_fails (answer : result FetchResponse) : Prop :=
  match answer with
  | Throw _ => True
  | Ok driveResponse =>
      match json_of driveResponse with
      | Throw _ => True
      | Ok _ => False
      end
  end.

(** The reading of [uploadFile] by which the PUT carries a [sha] if and only
    if the read of the file reported success. *)
Definition sha_sent_iff_read_succeeded
  {R : Runtime} (net : Network)
  (username repoName filePath : string) (content : FormValue)
  (token message : string) (sent : list Request) : Prop :=
  let url := fileUrl username repoName filePath in
  (exists checkResponse,
      net sent (github_get url token) = Ok checkResponse /\
      ok checkResponse = true)
  <->
  (exists data s,
      In (github_send PUT url token (BUpload data))
        (snd (uploadFile net username repoName filePath content token
                message sent)) /\
      ud_sha data = Some s).

(** ** Vocabulary of the handler's requests

    What the handler derives from the context and the form at lines 5 and 13
    to 17, 32 to 33 and 67 to 68, named so that statements about whole runs
    can be read; [onRequestPost_steps] ties them to the code. *)

Section Derived.
Context {R : Runtime}.

(** [GITHUB_USER], line 5. *)
Definition account (context : Context) : string :=
  env_or (GITHUB_USER (ctx_env context)) "iitjeelf".

(** [type === 'answer'], lines 16 and 30. *)
Definition is_answer (formData : FormData) : bool :=
  strict_eq (form_or (get formData "type") (EString "question")) "answer".

(** [date], line 17. *)
Definition date_of (context : Context) (formData : FormData) : FormEntry :=
  form_or (get formData "date") (EString (ctx_today context)).

(** [filePath], lines 32 and 67. *)
Definition path_of (context : Context) (formData : FormData) : string :=
  if is_answer formData
  then "answers/answer-key-" ++ show (Some (date_of context formData))
         ++ ".txt"
  else "questions/" ++ show (get formData "filename").

(** [message], lines 33 and 68, for the lower-cased class [className]. *)
Definition message_of
  (context : Context) (formData : FormData) (className : string) : string :=
  if is_answer formData
  then "Add answer key for " ++ toUpperCase className ++ " - "
         ++ show (Some (date_of context formData))
  else "Add question: " ++ show (get formData "filename") ++ " to "
         ++ toUpperCase className.

(** The first value of the header [name] of a request. *)
Fixpoint header_in (name : string) (headers : list (string * string))
  : option string :=
  match headers with
  | [] => None
  | (k, v) :: rest =>
      if String.eqb k name then Some v else header_in name rest
  end.

Definition header (name : string) (request : Request) : option string :=
  header_in name (req_headers request).

(** The request is addressed to the hosting API. *)
Definition to_host (request : Request) : bool :=
  String.prefix "https://api.github.com/" (req_url request).

(** The request carries the payload of the webhook. *)
Definition is_drive (request : Request) : bool :=
  match req_body request with
  | BDrive _ => true
  | _ => false
  end.

End Derived.

(** ** A reference engine

    An engine to run the handler on: case mapping on the ASCII letters, the
    forgiving base64 decoding of [atob], and messages for the engine's own
    errors.  The properties below hold for every engine. *)

Module Engine.
Local Open Scope N_scope.

Definition lower_char (c : ascii) : ascii :=
  let n := N_of_ascii c in
  if (N.leb 65 n && N.leb n 90)%bool then ascii_of_N (n + 32) else c.

Definition upper_char (c : ascii) : ascii :=
  let n := N_of_ascii c in
  if (N.leb 97 n && N.leb n 122)%bool then ascii_of_N (n - 32) else c.

Fixpoint map_string (f : ascii -> ascii) (s : string) : string :=
  match s with
  | EmptyString => EmptyString
  | String c rest => String (f c) (map_string f rest)
  end.

Definition is_space (c : ascii) : bool :=
  let n := N_of_ascii c in
  (N.eqb n 9 || N.eqb n 10 || N.eqb n 12 || N.eqb n 13 || N.eqb n 32)%bool.

(** The value of a character of the base64 alphabet. *)
Definition sextet (c : ascii) : option N :=
  let n := N_of_ascii c in
  if (N.leb 65 n && N.leb n 90)%bool then Some (n - 65)
  else if (N.leb 97 n && N.leb n 122)%bool then Some (n - 71)
  else if (N.leb 48 n && N.leb n 57)%bool then Some (n + 4)
  else if N.eqb n 43 then Some 62
  else if N.eqb n 47 then Some 63
  else None.

Fixpoint sextets (l : list ascii) : option (list N) :=
  match l with
  | [] => Some []
  | c :: rest =>
      match sextet c, sextets rest with
      | Some v, Some vs => Some (v :: vs)
      | _, _ => None
      end
  end.

(** Padding is dropped only from a text whose length is a multiple of 4. *)
Definition strip_padding (l : list ascii) : list ascii :=
  if Nat.eqb (Nat.modulo (length l) 4%nat) 0%nat
  then
    match rev l with
    | "="%char :: "="%char :: r => rev r
    | "="%char :: r => rev r
    | _ => l
    end
  else l.

Definition byte (n : N) : ascii := ascii_of_N (N.modulo n 256).

Fixpoint octets (l : list N) : list ascii :=
  match l with
  | a :: b :: c :: d :: rest =>
      let w := a * 262144 + b * 4096 + c * 64 + d in
      byte (w / 65536) :: byte (w / 256) :: byte w :: octets rest
  | [a; b; c] =>
      let w := a * 4096 + b * 64 + c in
      [byte (w / 1024); byte (w / 4)]
  | [a; b] =>
      let w := a * 64 + b in
      [byte (w / 16)]
  | _ => []
  end.

Definition invalid_character : Exn :=
  {| exn_name := "InvalidCharacterError";
     exn_message := "Invalid character" |}.

Definition decode_base64 (s : string) : result string :=
  let data :=
    strip_padding
      (filter (fun c => negb (is_space c)) (list_ascii_of_string s)) in
  if Nat.eqb (Nat.modulo (length data) 4%nat) 1%nat then Throw invalid_character
  else
    match sextets data with
    | Some vs => Ok (string_of_list_ascii (octets vs))
    | None => Throw invalid_character
    end.

Definition describe (f : Fault) : Exn :=
  {| exn_name := "TypeError";
     exn_message :=
       match f with
       | ReadOfNull p =>
           "Cannot read properties of null (reading '" ++ p ++ "')"
       | ReadOfUndefined p =>
           "Cannot read properties of undefined (reading '" ++ p ++ "')"
       | NotAFunction p => p ++ " is not a function"
       | NoPrimitive => "Cannot convert object to primitive value"
       end |}.

Definition reference : Runtime :=
  {| toLowerCase := map_string lower_char;
     toUpperCase := map_string upper_char;
     atob := decode_base64;
     engine_error := describe |}.

End Engine.

(** ** Scenarios

    Requests and scripted networks to run the handler on: the i-th request
    of a run gets the i-th answer of the script. *)

Module Demo.

Definition offline : Exn :=
  {| exn_name := "TypeError"; exn_message := "Network connection lost." |}.

Definition scripted (answers : list (result FetchResponse)) : Network :=
  fun sent _ => nth (length sent) answers (Throw offline).

Definition quote : string := String (ascii_of_N 34) EmptyString.

(** The text of a JSON value whose strings need no escape. *)
Fixpoint print (j : json) : string :=
  match j with
  | JNull => "null"
  | JBool true => "true"
  | JBool false => "false"
  | JNum text => text
  | JStr s => quote ++ s ++ quote
  | JArr items =>
      "["
        ++ (fix each (l : list json) : string :=
              match l with
              | [] => EmptyString
              | [x] => print x
              | x :: rest => print x ++ "," ++ each rest
              end) items
        ++ "]"
  | JObj members =>
      "{"
        ++ (fix each (l : list (string * json)) : string :=
              match l with
              | [] => EmptyString
              | [(k, x)] => quote ++ k ++ quote ++ ":" ++ print x
              | (k, x) :: rest =>
                  quote ++ k ++ quote ++ ":" ++ print x ++ "," ++ each rest
              end) members
        ++ "}"
  end.

(** A response with a JSON body, and one with a body that is not JSON. *)
Definition respond (code : N) (body : json) : result FetchResponse :=
  Ok {| ok := (N.leb 200 code && N.leb code 299)%bool;
        status := code;
        text_of := Ok (print body);
        json_of := Ok body |}.

Definition page (code : N) (text : string) (e : Exn)
  : result FetchResponse :=
  Ok {| ok := (N.leb 200 code && N.leb code 299)%bool;
        status := code;
        text_of := Ok text;
        json_of := Throw e |}.

Definition not_json : Exn :=
  {| exn_name := "SyntaxError";
     exn_message := "Unexpected token '<' is not valid JSON" |}.

Definition repo_exists : result FetchResponse :=
  respond 200 (JObj [("name", JStr "physics")]).

Definition missing : result FetchResponse :=
  respond 404 (JObj [("message", JStr "Not Found")]).

Definition file_exists : result FetchResponse :=
  respond 200
    (JObj [ ("name", JStr "q1.txt");
            ("sha", JStr "95b966ae1c166bd92f8ae7d1c313e738c731dfc3") ]).

Definition directory : result FetchResponse :=
  respond 200
    (JArr [ JObj [ ("name", JStr "q1.txt");
                   ("sha", JStr "95b966ae1c166bd92f8ae7d1c313e738c731dfc3") ] ]).

Definition written : result FetchResponse :=
  respond 201
    (JObj [ ("content",
             JObj [ ("html_url",
                     JStr "https://github.com/iitjeelf/physics/blob/main/f");
                    ("sha", JStr "7c258f7a0b1b2c1f4a2f9e5d2fbb5b1c0f7d3e11") ]);
            ("commit", JObj []) ]).

Definition rejected : result FetchResponse :=
  respond 422 (JObj [("message", JStr "Repository creation failed.")]).

Definition drive_done : result FetchResponse :=
  respond 200 (JObj [("success", JBool true)]).

Definition drive_page : result FetchResponse :=
  page 200 "<!DOCTYPE html><title>Sign in</title>" not_json.

Definition token : string := "ghp_0123456789".

Definition script : string := "https://script.google.com/macros/s/demo/exec".

Definition request (form : FormData) : Context :=
  {| ctx_env :=
       {| GITHUB_TOKEN := Some token;
          GITHUB_USER := None;
          GOOGLE_SCRIPT_URL := Some script |};
     ctx_formData := Ok form;
     ctx_today := "2024-06-30" |}.

Definition unconfigured (form : FormData) : Context :=
  {| ctx_env :=
       {| GITHUB_TOKEN := None;
          GITHUB_USER := None;
          GOOGLE_SCRIPT_URL := None |};
     ctx_formData := Ok form;
     ctx_today := "2024-06-30" |}.

Definition answer_form : FormData :=
  [ ("class", EString "Physics");
    ("content", EString "MS4gQQoyLiBD");
    ("type", EString "answer");
    ("date", EString "2024-05-01") ].

Definition question_form : FormData :=
  [ ("class", EString "Physics");
    ("filename", EString "q1.txt");
    ("content", EString "UTE=") ].

Definition nameless_form : FormData :=
  [ ("class", EString "Physics"); ("content", EString "UTE=") ].

Definition classless_form : FormData :=
  [ ("filename", EString "q1.txt"); ("content", EString "UTE=") ].

(** More answers of the host and of the script. *)
Definition refused : result FetchResponse :=
  respond 403 (JObj [("documentation_url", JStr "https://docs.github.com")]).

Definition conflict : result FetchResponse :=
  respond 409 (JObj [("message", JStr "is at 95b9 but expected 7c25")]).

Definition accepted_empty : result FetchResponse :=
  respond 200 (JObj [("commit", JObj [])]).

Definition drive_error : result FetchResponse :=
  respond 500 (JObj [("success", JBool false); ("error", JStr "quota")]).

Definition file_class_form : FormData :=
  [ ("class", EFile); ("filename", EString "q1.txt") ].

Definition dated_question_form : FormData :=
  [ ("date", EString "2024-05-01");
    ("class", EString "Physics");
    ("filename", EString "q1.txt");
    ("content", EString "UTE=") ].

Definition named_answer_form : FormData :=
  [ ("filename", EString "key.txt");
    ("class", EString "Physics");
    ("content", EString "MS4gQQoyLiBD");
    ("type", EString "answer");
    ("date", EString "2024-05-01") ].

Definition contentless_form : FormData :=
  [ ("class", EString "Physics");
    ("type", EString "answer");
    ("date", EString "2024-05-01") ].

Definition unreadable : Context :=
  {| ctx_env :=
       {| GITHUB_TOKEN := Some token;
          GITHUB_USER := Some EmptyString;
          GOOGLE_SCRIPT_URL := Some script |};
     ctx_formData :=
       Throw {| exn_name := "TypeError";
                exn_message := "Unrecognized Content-Type header value." |};
     ctx_today := "2024-06-30" |}.

End Demo.

(** Unfolds the operations of the monad. *)
Ltac run_monad := unfold bind, try_catch, fetch, lift, ret, throw.

(** ** The reference engine at work *)

Example lower_case_example :
  @toLowerCase Engine.reference "Class-12A" = "class-12a".
Proof. reflexivity. Qed.

Example upper_case_example :
  @toUpperCase Engine.reference "class-12a" = "CLASS-12A".
Proof. reflexivity. Qed.

Example atob_example :
  @atob Engine.reference "MS4gQQoyLiBD" = Ok "1. A
2. C".
Proof. reflexivity. Qed.

Example atob_padded_example : @atob Engine.reference "aGk=" = Ok "hi".
Proof. reflexivity. Qed.

Example atob_null_example :
  exists s, @atob Engine.reference (show None) = Ok s.
Proof. eexists. reflexivity. Qed.

Example atob_file_example :
  @atob Engine.reference (show (Some EFile)) = Throw Engine.invalid_character.
Proof. reflexivity. Qed.

(** ** The handler at work *)

(** An answer key for a class whose repository exists: the file is created
    and the webhook result is passed through. *)
Example answer_upload_example :
  onRequestPost (R := Engine.reference)
    (Demo.scripted
       [Demo.repo_exists; Demo.missing; Demo.written; Demo.drive_done])
    (Demo.request Demo.answer_form) []
  = (Ok {| resp_status := 200;
           resp_headers :=
             [ ("Content-Type", "application/json");
               ("Access-Control-Allow-Origin", "*") ];
           resp_body :=
             BodySuccess
               {| sd_message := "Uploaded to PHYSICS";
                  sd_github :=
                    {| res_url :=
                         Some
                           (JStr
                              "https://github.com/iitjeelf/physics/blob/main/f");
                       res_sha :=
                         Some
                           (JStr "7c258f7a0b1b2c1f4a2f9e5d2fbb5b1c0f7d3e11");
                       res_path := "answers/answer-key-2024-05-01.txt" |};
                  sd_drive := JObj [("success", JBool true)] |} |},
     [ {| req_url := "https://api.github.com/repos/iitjeelf/physics";
          req_method := GET;
          req_headers :=
            [ ("Authorization", "token ghp_0123456789");
              ("User-Agent", "LFJC-Portal");
              ("Accept", "application/vnd.github.v3+json") ];
          req_body := NoBody |};
       {| req_url :=
            "https://api.github.com/repos/iitjeelf/physics/contents/answers/answer-key-2024-05-01.txt";
          req_method := GET;
          req_headers :=
            [ ("Authorization", "token ghp_0123456789");
              ("User-Agent", "LFJC-Portal");
              ("Accept", "application/vnd.github.v3+json") ];
          req_body := NoBody |};
       {| req_url :=
            "https://api.github.com/repos/iitjeelf/physics/contents/answers/answer-key-2024-05-01.txt";
          req_method := PUT;
          req_headers :=
            [ ("Authorization", "token ghp_0123456789");
              ("User-Agent", "LFJC-Portal");
              ("Accept", "application/vnd.github.v3+json");
              ("Content-Type", "application/json") ];
          req_body :=
            BUpload
              {| ud_message := "Add answer key for PHYSICS - 2024-05-01";
                 ud_content := Some (EString "MS4gQQoyLiBD");
                 ud_branch := "main";
                 ud_sha := None |} |};
       {| req_url := "https://script.google.com/macros/s/demo/exec";
          req_method := POST;
          req_headers := [ ("Content-Type", "application/json") ];
          req_body :=
            BDrive
              {| dp_class := "PHYSICS";
                 dp_date := EString "2024-05-01";
                 dp_content := "1. A
2. C" |} |} ]).
Proof. reflexivity. Qed.

(** The same file uploaded again: the second PUT carries the [sha] read. *)
Example second_upload_example :
  snd (uploadFile (R := Engine.reference)
         (Demo.scripted [Demo.file_exists; Demo.written])
         "iitjeelf" "physics" "questions/q1.txt" (Some (EString "UTE="))
         Demo.token "Add question: q1.txt to PHYSICS" [])
  = [ github_get
        "https://api.github.com/repos/iitjeelf/physics/contents/questions/q1.txt"
        Demo.token;
      github_send PUT
        "https://api.github.com/repos/iitjeelf/physics/contents/questions/q1.txt"
        Demo.token
        (BUpload
           {| ud_message := "Add question: q1.txt to PHYSICS";
              ud_content := Some (EString "UTE=");
              ud_branch := "main";
              ud_sha :=
                Some (JStr "95b966ae1c166bd92f8ae7d1c313e738c731dfc3") |}) ].
Proof. reflexivity. Qed.

(** A repository that cannot be created, with a host answer that is not
    JSON: the parse error is what the caller gets. *)
Example creation_page_example :
  fst (onRequestPost (R := Engine.reference)
         (Demo.scripted
            [Demo.missing;
             Demo.page 502 "<html>Bad Gateway</html>" Demo.not_json])
         (Demo.request Demo.question_form) [])
  = Ok {| resp_status := 500;
          resp_headers :=
            [ ("Content-Type", "application/json");
              ("Access-Control-Allow-Origin", "*") ];
          resp_body :=
            BodyFailure "Unexpected token '<' is not valid JSON" |}.
Proof. reflexivity. Qed.


(** * Properties *)

Section Properties.
Context {R : Runtime}.
Variable net : Network.

(** ** The existence check of [uploadFile] *)

(** The check sends one GET and never throws. *)
Lemma checkFile_total (url token : string) (sent : list Request) :
  exists sha,
    checkFile net url token sent
    = (Ok sha, (sent ++ [github_get url token])%list).
Proof.
  unfold checkFile, try_catch, bind, fetch, lift, ret.
  destruct (net sent (github_get url token)) as [response | e].
  - destruct (ok response).
    + destruct (json_of response) as [fileData | e].
      * destruct (prop (Some fileData) "sha") as [v | e]; eauto.
      * eauto.
    + destruct (N.eqb (status response) 404); eauto.
  - eauto.
Qed.

(** What the check leaves in [sha] is truthy exactly when the read
    succeeded, its body parsed, and the parsed value has a truthy [sha]. *)
Lemma checkFile_sha (url token : string) (sent sent' : list Request)
  (sha : value) (s : json) :
  checkFile net url token sent = (Ok sha, sent') ->
  (sha = Some s /\ truthy sha = true) <->
  (exists response fileData,
      net sent (github_get url token) = Ok response /\
      ok response = true /\
      json_of response = Ok fileData /\
      prop (Some fileData) "sha" = Ok (Some s) /\
      truthy (Some s) = true).
Proof.
  unfold checkFile, try_catch, bind, fetch, lift, ret.
  destruct (net sent (github_get url token)) as [response | e].
  - destruct (ok response) eqn:Hok.
    + destruct (json_of response) as [fileData | e] eqn:Hjson.
      * destruct (prop (Some fileData) "sha") as [v | e] eqn:Hprop.
        -- intros H; injection H as <- _. split.
           ++ intros [-> Ht]. exists response, fileData. auto.
           ++ intros (r' & d' & Hr & _ & Hj & Hp & Ht).
              injection Hr as <-. rewrite Hjson in Hj. injection Hj as <-.
              rewrite Hprop in Hp. injection Hp as ->. auto.
        -- intros H; injection H as <- _. split.
           ++ intros [_ Ht]; discriminate Ht.
           ++ intros (r' & d' & Hr & _ & Hj & Hp & _).
              injection Hr as <-. rewrite Hjson in Hj. injection Hj as <-.
              rewrite Hprop in Hp. discriminate Hp.
      * intros H; injection H as <- _. split.
        -- intros [_ Ht]; discriminate Ht.
        -- intros (r' & d' & Hr & _ & Hj & _).
           injection Hr as <-. rewrite Hjson in Hj. discriminate Hj.
    + destruct (N.eqb (status response) 404);
        (intros H; injection H as <- _; split;
         [ intros [_ Ht]; discriminate Ht
         | intros (r' & d' & Hr & Hok' & _); injection Hr as <-; congruence ]).
  - intros H; injection H as <- _. split.
    + intros [_ Ht]; discriminate Ht.
    + intros (r' & d' & Hr & _). discriminate Hr.
Qed.

(** ** [uploadFile] *)

(** [uploadFile] sends the check and then the PUT, whatever the check gave
    and whatever the PUT gives. *)
Lemma uploadFile_requests
  (username repoName filePath : string) (content : FormValue)
  (token message : string) (sent : list Request) :
  let url := fileUrl username repoName filePath in
  exists sha,
    checkFile net url token sent
    = (Ok sha, (sent ++ [github_get url token])%list) /\
    snd (uploadFile net username repoName filePath content token message sent)
    = (sent ++ [ github_get url token;
                 github_send PUT url token
                   (BUpload (uploadData message content sha)) ])%list.
Proof.
  intros url.
  destruct (checkFile_total url token sent) as [sha Hcheck].
  exists sha. split; [exact Hcheck |].
  unfold uploadFile. fold url. unfold bind at 1. rewrite Hcheck.
  run_monad. rewrite <- app_assoc. simpl app.
  destruct (net _ _) as [response | e]; [| reflexivity].
  destruct (ok response); simpl negb; cbv iota.
  - destruct (json_of response) as [result | e]; [| reflexivity].
    destruct (prop (Some result) "content") as [c | e]; [| reflexivity].
    destruct (prop c "html_url") as [u | e]; [| reflexivity].
    destruct (prop c "sha") as [s | e]; reflexivity.
  - destruct (text_of response) as [errorText | e]; reflexivity.
Qed.

(** The outcome of [uploadFile], from the response to its PUT. *)
Lemma uploadFile_run
  (username repoName filePath : string) (content : FormValue)
  (token message : string) (sent sent' : list Request) (sha : value)
  (uploadResponse : FetchResponse) :
  let url := fileUrl username repoName filePath in
  let put :=
    github_send PUT url token (BUpload (uploadData message content sha)) in
  checkFile net url token sent = (Ok sha, sent') ->
  net sent' put = Ok uploadResponse ->
  uploadFile net username repoName filePath content token message sent
  = if negb (ok uploadResponse)
    then
      match text_of uploadResponse with
      | Throw e => (Throw e, (sent' ++ [put])%list)
      | Ok errorText =>
          (Throw {| exn_name := "Error";
                    exn_message :=
                      "GitHub API error: "
                        ++ show_status (status uploadResponse) |},
           (sent' ++ [put])%list)
      end
    else
      match json_of uploadResponse with
      | Throw e => (Throw e, (sent' ++ [put])%list)
      | Ok result =>
          match prop (Some result) "content" with
          | Throw e => (Throw e, (sent' ++ [put])%list)
          | Ok c =>
              match prop c "html_url", prop c "sha" with
              | Ok u, Ok s =>
                  (Ok {| res_url := u; res_sha := s; res_path := filePath |},
                   (sent' ++ [put])%list)
              | Throw e, _ => (Throw e, (sent' ++ [put])%list)
              | Ok _, Throw e => (Throw e, (sent' ++ [put])%list)
              end
          end
      end.
Proof.
  intros url put Hcheck Hput.
  unfold uploadFile. fold url. unfold bind at 1. rewrite Hcheck.
  fold put. run_monad. rewrite Hput.
  destruct (negb (ok uploadResponse));
    [destruct (text_of uploadResponse); reflexivity |].
  destruct (json_of uploadResponse) as [result | e]; [| reflexivity].
  destruct (prop (Some result) "content") as [c | e]; [| reflexivity].
  destruct (prop c "html_url") as [u | e]; [| reflexivity].
  destruct (prop c "sha") as [s | e]; reflexivity.
Qed.

(** ** [ensureRepo] *)

Lemma ensureRepo_found
  (username repoName token : string) (sent : list Request)
  (checkResponse : FetchResponse) :
  let check := github_get (repoUrl username repoName) token in
  net sent check = Ok checkResponse ->
  ok checkResponse = true ->
  ensureRepo net username repoName token sent
  = (Ok true, (sent ++ [check])%list).
Proof.
  intros check Hnet Hok. unfold ensureRepo. fold check.
  run_monad. rewrite Hnet, Hok. reflexivity.
Qed.

Lemma ensureRepo_create
  (username repoName token : string) (sent : list Request) :
  let check := github_get (repoUrl username repoName) token in
  let create :=
    github_send POST "https://api.github.com/user/repos" token
      (createRepo repoName) in
  let sent' := (sent ++ [check; create])%list in
  not_found (net sent check) ->
  ensureRepo net username repoName token sent
  = match net (sent ++ [check])%list create with
    | Throw e => (Throw e, sent')
    | Ok createResponse =>
        if ok createResponse then (Ok true, sent')
        else
          match json_of createResponse with
          | Throw e => (Throw e, sent')
          | Ok error =>
              match prop (Some error) "message" with
              | Throw e => (Throw e, sent')
              | Ok message =>
                  match interpolate message with
                  | Throw e => (Throw e, sent')
                  | Ok text =>
                      (Throw {| exn_name := "Error";
                                exn_message :=
                                  "Failed to create repo " ++ repoName
                                    ++ ": " ++ text |},
                       sent')
                  end
              end
          end
    end.
Proof.
  intros check create sent' Hnot. unfold ensureRepo. fold check create.
  subst sent'. unfold not_found in Hnot. run_monad.
  replace (sent ++ [check; create])%list
    with ((sent ++ [check]) ++ [create])%list
    by (rewrite <- app_assoc; reflexivity).
  destruct (net sent check) as [r | e0]; [rewrite Hnot |];
    (destruct (net (sent ++ [check])%list create) as [cr | e];
     [| reflexivity];
     destruct (ok cr); simpl negb; cbv iota; [reflexivity |];
     destruct (json_of cr) as [error | e]; [| reflexivity];
     destruct (prop (Some error) "message") as [m | e]; [| reflexivity];
     destruct (interpolate m) as [text | e]; reflexivity).
Qed.

(** ** The handler, step by step *)

Lemma onRequestPost_no_token (context : Context) (sent : list Request) :
  configured (GITHUB_TOKEN (ctx_env context)) = None ->
  onRequestPost net context sent
  = (Ok (errorResponse "No GitHub token"), sent).
Proof.
  intros Htoken. unfold onRequestPost, tryBlock, try_catch.
  rewrite Htoken. reflexivity.
Qed.

(** With a token, an exception raised while the form is read ends the
    request before any request is sent. *)
Lemma onRequestPost_form_throws
  (context : Context) (token : string) (e : Exn) (sent : list Request) :
  configured (GITHUB_TOKEN (ctx_env context)) = Some token ->
  match ctx_formData context with
  | Throw e' => e' = e
  | Ok formData => call_toLowerCase (get formData "class") = Throw e
  end ->
  onRequestPost net context sent
  = (Ok (errorResponse (exn_message e)), sent).
Proof.
  intros Htoken Hform. unfold onRequestPost, tryBlock, try_catch.
  rewrite Htoken. run_monad.
  destruct (ctx_formData context) as [formData | e'].
  - rewrite Hform. reflexivity.
  - subst e'. reflexivity.
Qed.

(** The webhook step never throws, and sends at most one request. *)
Lemma sendToDrive_total
  (script : option string) (className : string) (date : FormEntry)
  (content : FormValue) (sent : list Request) :
  exists driveResult sent',
    sendToDrive net script className date content sent
    = (Ok driveResult, sent') /\
    (sent' = sent \/
     exists scriptUrl decoded,
       script = Some scriptUrl /\
       atob (show content) = Ok decoded /\
       sent' = (sent ++ [driveRequest scriptUrl className date decoded])%list).
Proof.
  unfold sendToDrive. destruct script as [scriptUrl |].
  - run_monad. destruct (atob (show content)) as [decoded | e].
    + destruct (net sent _) as [driveResponse | e].
      * destruct (json_of driveResponse) as [driveResult | e];
          do 2 eexists; (split; [reflexivity |]); right; eauto.
      * do 2 eexists; (split; [reflexivity |]); right; eauto.
    + do 2 eexists; (split; [reflexivity |]); left; reflexivity.
  - do 2 eexists; (split; [reflexivity |]); left; reflexivity.
Qed.

Lemma onRequestPost_run
  (context : Context) (token : string) (formData : FormData) (c : string)
  (sent : list Request) :
  configured (GITHUB_TOKEN (ctx_env context)) = Some token ->
  ctx_formData context = Ok formData ->
  get formData "class" = Some (EString c) ->
  let username := env_or (GITHUB_USER (ctx_env context)) "iitjeelf" in
  let script := configured (GOOGLE_SCRIPT_URL (ctx_env context)) in
  let className := toLowerCase c in
  let filename := get formData "filename" in
  let content := get formData "content" in
  let type := form_or (get formData "type") (EString "question") in
  let date := form_or (get formData "date") (EString (ctx_today context)) in
  let uploaded := "Uploaded to " ++ toUpperCase className in
  onRequestPost net context sent
  = match ensureRepo net username className token sent with
    | (Throw e, sent1) => (Ok (errorResponse (exn_message e)), sent1)
    | (Ok _, sent1) =>
        if strict_eq type "answer"
        then
          match
            uploadFile net username className
              ("answers/answer-key-" ++ show (Some date) ++ ".txt")
              content token
              ("Add answer key for " ++ toUpperCase className ++ " - "
                 ++ show (Some date))
              sent1
          with
          | (Throw e, sent2) => (Ok (errorResponse (exn_message e)), sent2)
          | (Ok githubResult, sent2) =>
              match sendToDrive net script className date content sent2 with
              | (Throw e, sent3) =>
                  (Ok (errorResponse (exn_message e)), sent3)
              | (Ok driveResult, sent3) =>
                  (Ok (successResponse
                         {| sd_message := uploaded;
                            sd_github := githubResult;
                            sd_drive := driveResult |}),
                   sent3)
              end
          end
        else
          match
            uploadFile net username className
              ("questions/" ++ show filename) content token
              ("Add question: " ++ show filename ++ " to "
                 ++ toUpperCase className)
              sent1
          with
          | (Throw e, sent2) => (Ok (errorResponse (exn_message e)), sent2)
          | (Ok githubResult, sent2) =>
              (Ok (successResponse
                     {| sd_message := uploaded;
                        sd_github := githubResult;
                        sd_drive := JNull |}),
               sent2)
          end
    end.
Proof.
  intros Htoken Hform Hclass username script className filename content
    type date uploaded.
  unfold onRequestPost, tryBlock, try_catch at 1. rewrite Htoken.
  unfold bind at 1. unfold lift at 1. rewrite Hform.
  unfold bind at 1. unfold lift at 1. rewrite Hclass. simpl call_toLowerCase.
  fold username script className filename content type date uploaded.
  unfold bind at 1.
  destruct (ensureRepo net username className token sent) as [[b | e] sent1];
    [| reflexivity].
  destruct (strict_eq type "answer").
  - unfold bind at 1.
    destruct (uploadFile net username className _ content token _ sent1)
      as [[githubResult | e] sent2]; [| reflexivity].
    unfold bind at 1.
    destruct (sendToDrive net script className date content sent2)
      as [[driveResult | e] sent3]; reflexivity.
  - unfold bind at 1.
    destruct (uploadFile net username className _ content token _ sent1)
      as [[githubResult | e] sent2]; reflexivity.
Qed.

(** ** Claims about [uploadFile] *)

(** C1, amended.  [uploadFile] always sends the read of the file and then
    the PUT, with the message, the content and the branch [main].  The PUT
    carries a [sha] exactly when the read reported success, its body parsed
    as JSON and the parsed value has a truthy [sha]; the [sha] sent is then
    the one read.  When the read threw or reported any non-success status,
    404 included, the PUT carries no [sha] and is sent all the same. *)
Theorem uploadFile_sha_sent
  (username repoName filePath : string) (content : FormValue)
  (token message : string) (sent : list Request) :
  let url := fileUrl username repoName filePath in
  exists data,
    snd (uploadFile net username repoName filePath content token message sent)
    = (sent ++ [ github_get url token;
                 github_send PUT url token (BUpload data) ])%list /\
    ud_message data = message /\
    ud_content data = content /\
    ud_branch data = "main" /\
    (forall s,
        ud_sha data = Some s <->
        exists checkResponse fileData,
          net sent (github_get url token) = Ok checkResponse /\
          ok checkResponse = true /\
          json_of checkResponse = Ok fileData /\
          prop (Some fileData) "sha" = Ok (Some s) /\
          truthy (Some s) = true) /\
    (not_found (net sent (github_get url token)) -> ud_sha data = None).
Proof.
  intros url.
  destruct (uploadFile_requests username repoName filePath content token
              message sent) as (sha & Hcheck & Hsent).
  fold url in Hcheck, Hsent.
  exists (uploadData message content sha).
  repeat split; try exact Hsent.
  - intros Hsha. apply (checkFile_sha _ _ _ _ _ s Hcheck).
    simpl in Hsha. destruct (truthy sha) eqn:Ht; [auto | discriminate].
  - intros Hread. apply (checkFile_sha _ _ _ _ _ s Hcheck) in Hread.
    destruct Hread as [-> Ht]. unfold uploadData. cbn [ud_sha].
    rewrite Ht. reflexivity.
  - intros Hnot. simpl. destruct (truthy sha) eqn:Ht; [| reflexivity].
    destruct sha as [s |]; [| discriminate Ht].
    destruct (proj1 (checkFile_sha _ _ _ _ _ s Hcheck) (conj eq_refl Ht))
      as (r & d & Hr & Hok & _).
    unfold not_found in Hnot. rewrite Hr in Hnot. congruence.
Qed.

(** C3.  When the PUT is answered with a non-success response, [uploadFile]
    reads the text of its body and throws an [Error] whose message is
    [GitHub API error: ] followed by the status code, whatever the text
    read.  When the PUT is answered
    with success and a body that parses to a value with a [content] member
    other than [null], it returns the record of [url], [sha] and [path],
    where [url] and [sha] are [content.html_url] and [content.sha] and
    [path] is the path it was called with. *)
Theorem uploadFile_outcome
  (username repoName filePath : string) (content : FormValue)
  (token message : string) (sent sent' : list Request) (sha : value)
  (uploadResponse : FetchResponse) :
  let url := fileUrl username repoName filePath in
  let put :=
    github_send PUT url token (BUpload (uploadData message content sha)) in
  checkFile net url token sent = (Ok sha, sent') ->
  net sent' put = Ok uploadResponse ->
  (ok uploadResponse = false ->
   forall errorText,
   text_of uploadResponse = Ok errorText ->
   uploadFile net username repoName filePath content token message sent
   = (Throw {| exn_name := "Error";
               exn_message :=
                 "GitHub API error: "
                   ++ show_status (status uploadResponse) |},
      (sent' ++ [put])%list)) /\
  (ok uploadResponse = true ->
   forall result c,
     json_of uploadResponse = Ok result ->
     prop (Some result) "content" = Ok (Some c) ->
     c <> JNull ->
     exists html_url sha_,
       prop (Some c) "html_url" = Ok html_url /\
       prop (Some c) "sha" = Ok sha_ /\
       uploadFile net username repoName filePath content token message sent
       = (Ok {| res_url := html_url;
                res_sha := sha_;
                res_path := filePath |},
          (sent' ++ [put])%list)).
Proof.
  intros url put Hcheck Hput.
  pose proof (uploadFile_run username repoName filePath content token message
                sent sent' sha uploadResponse Hcheck Hput) as Hrun.
  fold url put in Hrun. split.
  - intros Hok errorText Htext. rewrite Hrun, Hok, Htext. reflexivity.
  - intros Hok result c Hjson Hcontent Hc.
    rewrite Hrun, Hok, Hjson, Hcontent. simpl negb. cbv iota.
    destruct c as [| b | t | s | items | members];
      [congruence | | | | |]; do 2 eexists;
      (split; [reflexivity |]); (split; reflexivity).
Qed.

Lemma ensureRepo_requests
  (username repoName token : string) (sent : list Request) :
  let check := github_get (repoUrl username repoName) token in
  let create :=
    github_send POST "https://api.github.com/user/repos" token
      (createRepo repoName) in
  snd (ensureRepo net username repoName token sent) = (sent ++ [check])%list
  \/ snd (ensureRepo net username repoName token sent)
     = (sent ++ [check; create])%list.
Proof.
  intros check create.
  destruct (net sent check) as [checkResponse | e] eqn:Hnet.
  - destruct (ok checkResponse) eqn:Hok.
    + left. unfold check in Hnet.
      rewrite (ensureRepo_found _ _ _ _ _ Hnet Hok). reflexivity.
    + right. rewrite ensureRepo_create
        by (unfold not_found; fold check; rewrite Hnet; exact Hok).
      fold check create.
      destruct (net (sent ++ [check])%list create) as [cr | e];
        [| reflexivity].
      destruct (ok cr); [reflexivity |].
      destruct (json_of cr) as [error | e]; [| reflexivity].
      destruct (prop (Some error) "message") as [m | e]; [| reflexivity].
      destruct (interpolate m) as [text | e]; reflexivity.
  - right. rewrite ensureRepo_create
      by (unfold not_found; fold check; rewrite Hnet; exact I).
    fold check create.
    destruct (net (sent ++ [check])%list create) as [cr | e0];
      [| reflexivity].
    destruct (ok cr); [reflexivity |].
    destruct (json_of cr) as [error | e0]; [| reflexivity].
    destruct (prop (Some error) "message") as [m | e0]; [| reflexivity].
    destruct (interpolate m) as [text | e0]; reflexivity.
Qed.

(** ** Claims about the handler *)

(** C5.  When the access token is unset or empty, the handler answers with
    the failure envelope for [No GitHub token], status 500, and sends no
    request at all. *)
Theorem missing_token_no_request (context : Context) (sent : list Request) :
  GITHUB_TOKEN (ctx_env context) = None
  \/ GITHUB_TOKEN (ctx_env context) = Some EmptyString ->
  onRequestPost net context sent
  = (Ok {| resp_status := 500;
           resp_headers :=
             [ ("Content-Type", "application/json");
               ("Access-Control-Allow-Origin", "*") ];
           resp_body := BodyFailure "No GitHub token" |},
     sent).
Proof.
  intros Htoken. apply onRequestPost_no_token.
  destruct Htoken as [-> | ->]; reflexivity.
Qed.

(** C10.  When the form has no [class] field, lower-casing it throws the
    engine's error for a call on [null]; with a token configured the handler
    catches it and answers with the failure envelope carrying its message.
    With or without a token the answer is a failure envelope with status 500
    and no request is sent. *)
Theorem missing_class_fails
  (context : Context) (formData : FormData) (sent : list Request) :
  ctx_formData context = Ok formData ->
  get formData "class" = None ->
  call_toLowerCase (get formData "class")
  = Throw (engine_error (ReadOfNull "toLowerCase")) /\
  (forall token,
      configured (GITHUB_TOKEN (ctx_env context)) = Some token ->
      onRequestPost net context sent
      = (Ok (errorResponse
               (exn_message (engine_error (ReadOfNull "toLowerCase")))),
         sent)) /\
  (exists response message,
      onRequestPost net context sent = (Ok response, sent) /\
      resp_status response = 500%N /\
      resp_body response = BodyFailure message).
Proof.
  intros Hform Hclass.
  assert (Hthrow : call_toLowerCase (get formData "class")
                   = Throw (engine_error (ReadOfNull "toLowerCase")))
    by (rewrite Hclass; reflexivity).
  assert (Hrun : forall token,
             configured (GITHUB_TOKEN (ctx_env context)) = Some token ->
             onRequestPost net context sent
             = (Ok (errorResponse
                      (exn_message (engine_error (ReadOfNull "toLowerCase")))),
                sent)).
  { intros token Htoken.
    apply (onRequestPost_form_throws context token _ sent Htoken).
    rewrite Hform. exact Hthrow. }
  split; [exact Hthrow |]. split; [exact Hrun |].
  destruct (configured (GITHUB_TOKEN (ctx_env context))) as [token |] eqn:Ht.
  - do 2 eexists. rewrite (Hrun token eq_refl).
    repeat split; reflexivity.
  - do 2 eexists. rewrite (onRequestPost_no_token context sent Ht).
    repeat split; reflexivity.
Qed.

(** C8.  The handler never throws: it answers with [successResponse data],
    when its [try] block returned that, or with [errorResponse message].
    [successResponse data] has status 200, the header
    [Access-Control-Allow-Origin: *] and the body [{success: true, ...data}].
    An exception thrown anywhere in the [try] block is answered with
    [errorResponse] of its message: status 500, the same headers and the
    body [{success: false, message}], where [message] is the message of the
    exception ([errorResponse] puts [Upload failed] in the place of an empty
    message). *)
Theorem response_shaping (context : Context) (sent : list Request) :
  let headers :=
    [ ("Content-Type", "application/json");
      ("Access-Control-Allow-Origin", "*") ] in
  (forall data,
      successResponse data
      = {| resp_status := 200;
           resp_headers := headers;
           resp_body := BodySuccess data |}) /\
  (forall message,
      nonempty message = true ->
      errorResponse message
      = {| resp_status := 500;
           resp_headers := headers;
           resp_body := BodyFailure message |}) /\
  (forall e sent',
      tryBlock net context sent = (Throw e, sent') ->
      onRequestPost net context sent
      = (Ok (errorResponse (exn_message e)), sent') /\
      (nonempty (exn_message e) = true ->
       onRequestPost net context sent
       = (Ok {| resp_status := 500;
                resp_headers := headers;
                resp_body := BodyFailure (exn_message e) |},
          sent'))) /\
  (exists response sent',
      onRequestPost net context sent = (Ok response, sent') /\
      (resp_status response = 200%N /\
       (exists data, resp_body response = BodySuccess data) \/
       resp_status response = 500%N /\
       (exists message, resp_body response = BodyFailure message)) /\
      resp_headers response = headers).
Proof.
  intros headers. split; [reflexivity |]. split.
  { intros message Hm. unfold errorResponse. rewrite Hm. reflexivity. }
  split.
  { intros e sent' Hthrow. unfold onRequestPost, try_catch.
    rewrite Hthrow. split; [reflexivity |].
    intros Hm. unfold ret, errorResponse. rewrite Hm. reflexivity. }
  unfold onRequestPost, try_catch.
  destruct (tryBlock net context sent) as [[response | e] sent'] eqn:Hrun.
  - exists response, sent'. split; [reflexivity |].
    revert Hrun. unfold tryBlock.
    destruct (configured (GITHUB_TOKEN (ctx_env context))) as [token |].
    + run_monad.
      destruct (ctx_formData context) as [formData | e]; [| discriminate].
      destruct (call_toLowerCase (get formData "class")) as [className | e];
        [| discriminate].
      destruct (ensureRepo net _ className token sent) as [[b | e] sent1];
        [| discriminate].
      destruct (strict_eq _ "answer").
      * destruct (uploadFile net _ className _ _ token _ sent1)
          as [[githubResult | e] sent2]; [| discriminate].
        destruct (sendToDrive net _ className _ _ sent2)
          as [[driveResult | e] sent3]; [| discriminate].
        intros H; injection H as <- _.
        split; [left; split; [reflexivity | eexists; reflexivity]
               | reflexivity].
      * destruct (uploadFile net _ className _ _ token _ sent1)
          as [[githubResult | e] sent2]; [| discriminate].
        intros H; injection H as <- _.
        split; [left; split; [reflexivity | eexists; reflexivity]
               | reflexivity].
    + unfold ret. intros H; injection H as <- _.
      split; [right; split; [reflexivity | eexists; reflexivity]
             | reflexivity].
  - exists (errorResponse (exn_message e)), sent'.
    split; [reflexivity |].
    split; [right; split; [reflexivity | eexists; reflexivity]
           | reflexivity].
Qed.

(** The record [uploadFile] returns names the path it was called with. *)
Lemma uploadFile_path
  (username repoName filePath : string) (content : FormValue)
  (token message : string) (sent sent' : list Request)
  (githubResult : UploadResult) :
  uploadFile net username repoName filePath content token message sent
  = (Ok githubResult, sent') ->
  res_path githubResult = filePath.
Proof.
  destruct (checkFile_total (fileUrl username repoName filePath) token sent)
    as [sha Hcheck].
  destruct (net (sent ++ [github_get (fileUrl username repoName filePath)
                            token])%list
              (github_send PUT (fileUrl username repoName filePath) token
                 (BUpload (uploadData message content sha))))
    as [uploadResponse | e] eqn:Hput.
  - rewrite (uploadFile_run _ _ _ _ _ _ _ _ _ _ Hcheck Hput).
    destruct (negb (ok uploadResponse));
      [destruct (text_of uploadResponse); discriminate |].
    destruct (json_of uploadResponse) as [result | e]; [| discriminate].
    destruct (prop (Some result) "content") as [c | e]; [| discriminate].
    destruct (prop c "html_url") as [u | e]; [| discriminate].
    destruct (prop c "sha") as [s | e]; [| discriminate].
    intros H; injection H as <- _. reflexivity.
  - unfold uploadFile. unfold bind at 1. rewrite Hcheck.
    run_monad. rewrite Hput. discriminate.
Qed.

(** Once the repository is there, the handler reads and writes one file of
    that repository, and a success envelope names the path of that file. *)
Lemma onRequestPost_upload
  (context : Context) (token : string) (formData : FormData) (c : string)
  (sent sent1 : list Request) (found : bool) :
  configured (GITHUB_TOKEN (ctx_env context)) = Some token ->
  ctx_formData context = Ok formData ->
  get formData "class" = Some (EString c) ->
  let username := env_or (GITHUB_USER (ctx_env context)) "iitjeelf" in
  let className := toLowerCase c in
  let filename := get formData "filename" in
  let content := get formData "content" in
  let type := form_or (get formData "type") (EString "question") in
  let date := form_or (get formData "date") (EString (ctx_today context)) in
  let filePath :=
    if strict_eq type "answer"
    then "answers/answer-key-" ++ show (Some date) ++ ".txt"
    else "questions/" ++ show filename in
  let message :=
    if strict_eq type "answer"
    then "Add answer key for " ++ toUpperCase className ++ " - "
           ++ show (Some date)
    else "Add question: " ++ show filename ++ " to "
           ++ toUpperCase className in
  let url := fileUrl username className filePath in
  ensureRepo net username className token sent = (Ok found, sent1) ->
  exists sha rest,
    snd (onRequestPost net context sent)
    = (sent1 ++ [ github_get url token;
                  github_send PUT url token
                    (BUpload (uploadData message content sha)) ]
         ++ rest)%list /\
    (rest = [] \/
     strict_eq type "answer" = true /\
     exists scriptUrl decoded,
       configured (GOOGLE_SCRIPT_URL (ctx_env context)) = Some scriptUrl /\
       atob (show content) = Ok decoded /\
       rest = [driveRequest scriptUrl className date decoded]) /\
    (forall response data,
        fst (onRequestPost net context sent) = Ok response ->
        resp_body response = BodySuccess data ->
        res_path (sd_github data) = filePath).
Proof.
  intros Htoken Hform Hclass username className filename content type date
    filePath message url Hrepo.
  rewrite (onRequestPost_run context token formData c sent Htoken Hform
             Hclass).
  fold username className filename content type date. rewrite Hrepo.
  subst url filePath message.
  destruct (strict_eq type "answer").
  - match goal with
    | |- context [uploadFile net ?u ?r ?p ?ct ?t ?m sent1] =>
        destruct (uploadFile_requests u r p ct t m sent1)
          as (sha & _ & Hsent);
        pose proof (uploadFile_path u r p ct t m sent1) as Hpath;
        destruct (uploadFile net u r p ct t m sent1)
          as [[githubResult | e] sent2]
    end; simpl snd in Hsent; subst sent2.
    + match goal with
      | |- context [sendToDrive net ?s ?n ?d ?ct ?st] =>
          destruct (sendToDrive_total s n d ct st)
            as (driveResult & sent3 & Hdrive & Hsent3)
      end.
      rewrite Hdrive. exists sha.
      destruct Hsent3 as [-> | (scriptUrl & decoded & Hs & Ha & ->)].
      * exists []. rewrite app_nil_r. split; [reflexivity |].
        split; [left; reflexivity |].
        intros response data H Hbody. injection H as <-.
        injection Hbody as <-. exact (Hpath _ _ eq_refl).
      * eexists [_]. rewrite <- app_assoc. split; [reflexivity |].
        split; [right; split; [reflexivity |]; eauto |].
        intros response data H Hbody. injection H as <-.
        injection Hbody as <-. exact (Hpath _ _ eq_refl).
    + exists sha, []. rewrite app_nil_r. split; [reflexivity |].
      split; [left; reflexivity |].
      intros response data H Hbody. injection H as <-.
      unfold errorResponse in Hbody. discriminate Hbody.
  - match goal with
    | |- context [uploadFile net ?u ?r ?p ?ct ?t ?m sent1] =>
        destruct (uploadFile_requests u r p ct t m sent1)
          as (sha & _ & Hsent);
        pose proof (uploadFile_path u r p ct t m sent1) as Hpath;
        destruct (uploadFile net u r p ct t m sent1)
          as [[githubResult | e] sent2]
    end; simpl snd in Hsent; subst sent2;
      exists sha, []; rewrite app_nil_r; (split; [reflexivity |]);
      (split; [left; reflexivity |]);
      intros response data H Hbody; injection H as <-.
    + injection Hbody as <-. exact (Hpath _ _ eq_refl).
    + unfold errorResponse in Hbody. discriminate Hbody.
Qed.

(** C2.  The class field, lower-cased, is the name of the repository: the
    first request of the handler reads that repository.  Once the repository
    is there, the handler reads and writes the file at
    [answers/answer-key-{date}.txt] when the type is [answer], and at
    [questions/{filename}] for every other type, the default [question] of
    an absent type included; a success envelope names that path.  [{date}]
    is the date field, or the current date when the field is absent or
    empty. *)
Theorem stored_path
  (context : Context) (token : string) (formData : FormData) (c : string)
  (sent : list Request) :
  configured (GITHUB_TOKEN (ctx_env context)) = Some token ->
  ctx_formData context = Ok formData ->
  get formData "class" = Some (EString c) ->
  let username := env_or (GITHUB_USER (ctx_env context)) "iitjeelf" in
  let repoName := toLowerCase c in
  let type := form_or (get formData "type") (EString "question") in
  let date := form_or (get formData "date") (EString (ctx_today context)) in
  let filePath :=
    if strict_eq type "answer"
    then "answers/answer-key-" ++ show (Some date) ++ ".txt"
    else "questions/" ++ show (get formData "filename") in
  let url := fileUrl username repoName filePath in
  (exists rest,
      snd (onRequestPost net context sent)
      = (sent ++ github_get (repoUrl username repoName) token :: rest)%list)
  /\
  (forall found sent1,
      ensureRepo net username repoName token sent = (Ok found, sent1) ->
      exists data rest,
        snd (onRequestPost net context sent)
        = (sent1 ++ [ github_get url token;
                      github_send PUT url token (BUpload data) ]
             ++ rest)%list /\
        (forall response success,
            fst (onRequestPost net context sent) = Ok response ->
            resp_body response = BodySuccess success ->
            res_path (sd_github success) = filePath)).
Proof.
  intros Htoken Hform Hclass username repoName type date filePath url.
  split.
  - destruct (ensureRepo net username repoName token sent)
      as [[found | e] sent1] eqn:Hrepo.
    + destruct (onRequestPost_upload context token formData c sent sent1
                  found Htoken Hform Hclass Hrepo)
        as (sha & rest & Hsent & _).
      rewrite Hsent.
      pose proof (ensureRepo_requests username repoName token sent) as Hreq.
      rewrite Hrepo in Hreq. simpl snd in Hreq.
      destruct Hreq as [-> | ->]; rewrite <- app_assoc; eexists;
        reflexivity.
    + rewrite (onRequestPost_run context token formData c sent Htoken Hform
                 Hclass).
      fold username repoName. rewrite Hrepo.
      pose proof (ensureRepo_requests username repoName token sent) as Hreq.
      rewrite Hrepo in Hreq. simpl snd in *.
      destruct Hreq as [-> | ->]; eexists; reflexivity.
  - intros found sent1 Hrepo.
    destruct (onRequestPost_upload context token formData c sent sent1
                found Htoken Hform Hclass Hrepo)
      as (sha & rest & Hsent & _ & Hpath).
    eexists. exists rest. split; [exact Hsent | exact Hpath].
Qed.

(** C9.  A request whose type is not [answer] and which has no [filename]
    field is not rejected for it: once the repository is there, the handler
    reads and writes the file at [questions/null], with the commit message
    [Add question: null to {CLASS}], and a success envelope names the path
    [questions/null]. *)
Theorem question_without_filename
  (context : Context) (token : string) (formData : FormData) (c : string)
  (sent sent1 : list Request) (found : bool) :
  configured (GITHUB_TOKEN (ctx_env context)) = Some token ->
  ctx_formData context = Ok formData ->
  get formData "class" = Some (EString c) ->
  strict_eq (form_or (get formData "type") (EString "question")) "answer"
  = false ->
  get formData "filename" = None ->
  let username := env_or (GITHUB_USER (ctx_env context)) "iitjeelf" in
  let className := toLowerCase c in
  let url := fileUrl username className "questions/null" in
  ensureRepo net username className token sent = (Ok found, sent1) ->
  exists data,
    snd (onRequestPost net context sent)
    = (sent1 ++ [ github_get url token;
                  github_send PUT url token (BUpload data) ])%list /\
    ud_message data = "Add question: null to " ++ toUpperCase className /\
    (forall response success,
        fst (onRequestPost net context sent) = Ok response ->
        resp_body response = BodySuccess success ->
        res_path (sd_github success) = "questions/null").
Proof.
  intros Htoken Hform Hclass Htype Hname username className url Hrepo.
  destruct (onRequestPost_upload context token formData c sent sent1 found
              Htoken Hform Hclass Hrepo)
    as (sha & rest & Hsent & Hrest & Hpath).
  rewrite Htype in Hrest.
  destruct Hrest as [-> | [Habs _]]; [| discriminate Habs].
  rewrite Htype, Hname in Hsent, Hpath.
  rewrite app_nil_r in Hsent.
  eexists. split; [exact Hsent |]. split; [reflexivity | exact Hpath].
Qed.

(** C4.  For an answer upload whose repository check and file upload
    succeeded, the handler answers with the success envelope carrying the
    upload result, whatever the webhook step does.  With a script URL
    configured, the [drive] member of that envelope is [null] when the POST
    to the script throws, when its response does not parse as JSON, and
    when the content cannot be decoded in the first place. *)
Theorem webhook_failure_isolated
  (context : Context) (token : string) (formData : FormData) (c : string)
  (sent sent1 sent2 : list Request) (found : bool)
  (githubResult : UploadResult) :
  configured (GITHUB_TOKEN (ctx_env context)) = Some token ->
  ctx_formData context = Ok formData ->
  get formData "class" = Some (EString c) ->
  strict_eq (form_or (get formData "type") (EString "question")) "answer"
  = true ->
  let username := env_or (GITHUB_USER (ctx_env context)) "iitjeelf" in
  let className := toLowerCase c in
  let content := get formData "content" in
  let date := form_or (get formData "date") (EString (ctx_today context)) in
  let success driveResult :=
    {| resp_status := 200;
       resp_headers :=
         [ ("Content-Type", "application/json");
           ("Access-Control-Allow-Origin", "*") ];
       resp_body :=
         BodySuccess
           {| sd_message := "Uploaded to " ++ toUpperCase className;
              sd_github := githubResult;
              sd_drive := driveResult |} |} in
  ensureRepo net username className token sent = (Ok found, sent1) ->
  uploadFile net username className
    ("answers/answer-key-" ++ show (Some date) ++ ".txt") content token
    ("Add answer key for " ++ toUpperCase className ++ " - "
       ++ show (Some date))
    sent1
  = (Ok githubResult, sent2) ->
  (exists driveResult sent3,
      onRequestPost net context sent = (Ok (success driveResult), sent3)) /\
  (forall scriptUrl,
      configured (GOOGLE_SCRIPT_URL (ctx_env context)) = Some scriptUrl ->
      (forall e,
          atob (show content) = Throw e ->
          onRequestPost net context sent = (Ok (success JNull), sent2)) /\
      (forall decoded,
          atob (show content) = Ok decoded ->
          webhook_fails
            (net sent2 (driveRequest scriptUrl className date decoded)) ->
          onRequestPost net context sent
          = (Ok (success JNull),
             (sent2 ++ [driveRequest scriptUrl className date decoded])%list))).
Proof.
  intros Htoken Hform Hclass Htype username className content date success
    Hrepo Hupload.
  rewrite (onRequestPost_run context token formData c sent Htoken Hform
             Hclass).
  fold username className content date.
  rewrite Hrepo, Htype, Hupload. split.
  - destruct (sendToDrive_total
                (configured (GOOGLE_SCRIPT_URL (ctx_env context)))
                className date content sent2)
      as (driveResult & sent3 & Hdrive & _).
    rewrite Hdrive. exists driveResult, sent3. reflexivity.
  - intros scriptUrl Hscript. rewrite Hscript.
    unfold sendToDrive. run_monad. split.
    + intros e Hatob. rewrite Hatob. reflexivity.
    + intros decoded Hatob Hfails. rewrite Hatob.
      unfold webhook_fails in Hfails.
      destruct (net sent2 _) as [driveResponse | e]; [| reflexivity].
      destruct (json_of driveResponse) as [driveResult | e];
        [contradiction | reflexivity].
Qed.

(** C7.  Every request the handler sends with the payload of the webhook is
    sent for a request of type [answer], with a script URL configured, as a
    POST to that URL, and its payload is the upper-cased class, the date
    and the base64-decoded content.  When no script URL is configured,
    whatever the type, and when the type is not [answer], a success envelope
    has [drive: null]. *)
Theorem webhook_only_for_answers (context : Context) (sent : list Request) :
  (exists new,
      snd (onRequestPost net context sent) = (sent ++ new)%list /\
      forall request payload,
        In request new ->
        req_body request = BDrive payload ->
        exists token formData c scriptUrl decoded,
          configured (GITHUB_TOKEN (ctx_env context)) = Some token /\
          ctx_formData context = Ok formData /\
          get formData "class" = Some (EString c) /\
          strict_eq (form_or (get formData "type") (EString "question"))
            "answer" = true /\
          configured (GOOGLE_SCRIPT_URL (ctx_env context)) = Some scriptUrl /\
          atob (show (get formData "content")) = Ok decoded /\
          req_url request = scriptUrl /\
          req_method request = POST /\
          payload
          = {| dp_class := toUpperCase (toLowerCase c);
               dp_date :=
                 form_or (get formData "date")
                   (EString (ctx_today context));
               dp_content := decoded |}) /\
  (configured (GOOGLE_SCRIPT_URL (ctx_env context)) = None \/
   (forall formData,
       ctx_formData context = Ok formData ->
       strict_eq (form_or (get formData "type") (EString "question"))
         "answer" = false) ->
   forall response success,
     fst (onRequestPost net context sent) = Ok response ->
     resp_body response = BodySuccess success ->
     sd_drive success = JNull).
Proof.
  destruct (configured (GITHUB_TOKEN (ctx_env context))) as [token |]
    eqn:Htoken.
  2:{ rewrite (onRequestPost_no_token context sent Htoken). split.
      - exists []. rewrite app_nil_r. split; [reflexivity |].
        intros request payload [].
      - intros _ response success H Hbody. injection H as <-.
        discriminate Hbody. }
  destruct (ctx_formData context) as [formData | e] eqn:Hform.
  2:{ rewrite (onRequestPost_form_throws context token e sent Htoken)
        by (rewrite Hform; reflexivity).
      split.
      - exists []. rewrite app_nil_r. split; [reflexivity |].
        intros request payload [].
      - intros _ response success H Hbody. injection H as <-.
        discriminate Hbody. }
  destruct (call_toLowerCase (get formData "class")) as [className | e]
    eqn:Hcall.
  2:{ rewrite (onRequestPost_form_throws context token e sent Htoken)
        by (rewrite Hform; exact Hcall).
      split.
      - exists []. rewrite app_nil_r. split; [reflexivity |].
        intros request payload [].
      - intros _ response success H Hbody. injection H as <-.
        discriminate Hbody. }
  destruct (get formData "class") as [[c |] |] eqn:Hclass;
    try discriminate Hcall.
  simpl in Hcall. injection Hcall as <-.
  pose proof (ensureRepo_requests
                (env_or (GITHUB_USER (ctx_env context)) "iitjeelf")
                (toLowerCase c) token sent) as Hreq.
  destruct (ensureRepo net
              (env_or (GITHUB_USER (ctx_env context)) "iitjeelf")
              (toLowerCase c) token sent) as [[found | e] sent1] eqn:Hrepo.
  - destruct (onRequestPost_upload context token formData c sent sent1 found
                Htoken Hform Hclass Hrepo)
      as (sha & rest & Hsent & Hrest & _).
    split.
    + simpl snd in Hreq. rewrite Hsent.
      assert (Hnew : exists repo, sent1 = (sent ++ repo)%list /\
                forall request payload,
                  In request repo -> req_body request <> BDrive payload).
      { destruct Hreq as [-> | ->]; eexists; (split; [reflexivity |]);
          intros request payload Hin;
          repeat (destruct Hin as [<- | Hin]; [discriminate |]);
          destruct Hin. }
      destruct Hnew as (repo & -> & Hrepo_body).
      eexists. rewrite <- app_assoc. split; [reflexivity |].
      intros request payload Hin Hbody.
      apply in_app_or in Hin. destruct Hin as [Hin | Hin];
        [exfalso; exact (Hrepo_body _ _ Hin Hbody) |].
      destruct Hin as [<- | Hin]; [discriminate Hbody |].
      destruct Hin as [<- | Hin]; [discriminate Hbody |].
      destruct Hrest as [-> | (Htype & scriptUrl & decoded & Hs & Ha & ->)];
        [destruct Hin |].
      destruct Hin as [<- | []].
      exists token, formData, c, scriptUrl, decoded.
      injection Hbody as <-. repeat split; auto.
    + rewrite (onRequestPost_run context token formData c sent Htoken Hform
                 Hclass).
      rewrite Hrepo. intros Hcase response success.
      destruct (strict_eq _ "answer") eqn:Htype.
      * destruct Hcase as [Hscript | Hquestion];
          [| rewrite (Hquestion formData eq_refl) in Htype;
             discriminate Htype].
        rewrite Hscript.
        destruct (uploadFile net _ _ _ _ _ _ sent1)
          as [[githubResult | e] sent2].
        -- unfold sendToDrive, ret. intros H Hbody. injection H as <-.
           injection Hbody as <-. reflexivity.
        -- intros H Hbody. injection H as <-. discriminate Hbody.
      * destruct (uploadFile net _ _ _ _ _ _ sent1)
          as [[githubResult | e] sent2];
          intros H Hbody; injection H as <-;
          [injection Hbody as <-; reflexivity | discriminate Hbody].
  - rewrite (onRequestPost_run context token formData c sent Htoken Hform
               Hclass).
    rewrite Hrepo. simpl snd in *. split.
    + destruct Hreq as [-> | ->]; eexists; (split; [reflexivity |]);
        intros request payload Hin Hbody;
        repeat (destruct Hin as [<- | Hin]; [discriminate Hbody |]);
        destruct Hin.
    + intros _ response success H Hbody. injection H as <-.
      discriminate Hbody.
Qed.

(** C6.  When the read of the repository reports success, [ensureRepo]
    returns after that one request.  When it throws or reports anything
    else, [ensureRepo] next POSTs the creation of the repository.  When that
    creation is answered with a non-success response whose body is a JSON
    value with the message [text], [ensureRepo] throws the error
    [Failed to create repo {name}: {text}], and a handler that called it
    for its class answers with the failure envelope carrying that message. *)
Theorem ensureRepo_outcome
  (username repoName token : string) (sent : list Request) :
  let check := github_get (repoUrl username repoName) token in
  let create :=
    github_send POST "https://api.github.com/user/repos" token
      (createRepo repoName) in
  (forall checkResponse,
      net sent check = Ok checkResponse ->
      ok checkResponse = true ->
      ensureRepo net username repoName token sent
      = (Ok true, (sent ++ [check])%list)) /\
  (not_found (net sent check) ->
   snd (ensureRepo net username repoName token sent)
   = (sent ++ [check; create])%list) /\
  (not_found (net sent check) ->
   forall createResponse error hostMessage text,
     net (sent ++ [check])%list create = Ok createResponse ->
     ok createResponse = false ->
     json_of createResponse = Ok error ->
     prop (Some error) "message" = Ok hostMessage ->
     interpolate hostMessage = Ok text ->
     let message := "Failed to create repo " ++ repoName ++ ": " ++ text in
     ensureRepo net username repoName token sent
     = (Throw {| exn_name := "Error"; exn_message := message |},
        (sent ++ [check; create])%list) /\
     forall context formData c,
       configured (GITHUB_TOKEN (ctx_env context)) = Some token ->
       env_or (GITHUB_USER (ctx_env context)) "iitjeelf" = username ->
       ctx_formData context = Ok formData ->
       get formData "class" = Some (EString c) ->
       toLowerCase c = repoName ->
       onRequestPost net context sent
       = (Ok {| resp_status := 500;
                resp_headers :=
                  [ ("Content-Type", "application/json");
                    ("Access-Control-Allow-Origin", "*") ];
                resp_body := BodyFailure message |},
          (sent ++ [check; create])%list)).
Proof.
  intros check create. split; [| split].
  - intros checkResponse Hnet Hok.
    exact (ensureRepo_found username repoName token sent checkResponse
             Hnet Hok).
  - intros Hnot.
    destruct (ensureRepo_requests username repoName token sent)
      as [Hone | Htwo]; [| exact Htwo].
    exfalso. rewrite (ensureRepo_create username repoName token sent Hnot)
      in Hone.
    fold check create in Hone.
    assert (Hlen : length (sent ++ [check; create])
                   = length (sent ++ [check])%list)
      by (rewrite <- Hone;
          destruct (net (sent ++ [check])%list create) as [cr | e];
          [| reflexivity];
          destruct (ok cr); [reflexivity |];
          destruct (json_of cr) as [error | e]; [| reflexivity];
          destruct (prop (Some error) "message") as [m | e];
          [| reflexivity];
          destruct (interpolate m) as [text | e]; reflexivity).
    rewrite !length_app in Hlen. simpl in Hlen. lia.
  - intros Hnot createResponse error hostMessage text Hnet Hok Hjson Hprop
      Htext message.
    assert (Hrun : ensureRepo net username repoName token sent
                   = (Throw {| exn_name := "Error";
                               exn_message := message |},
                      (sent ++ [check; create])%list)).
    { rewrite (ensureRepo_create username repoName token sent Hnot).
      fold check create. rewrite Hnet, Hok, Hjson, Hprop, Htext.
      reflexivity. }
    split; [exact Hrun |].
    intros context formData c Htoken Huser Hform Hclass Hlower.
    rewrite (onRequestPost_run context token formData c sent Htoken Hform
               Hclass).
    rewrite Huser, Hlower, Hrun. reflexivity.
Qed.

End Properties.

(** * Runs on the reference engine *)

Section Runs.
Import Demo.

(** C1 as stated fails on a path that names a directory: the read succeeds
    with the listing of the directory, which has no [sha] of its own, and
    the PUT goes out without one. *)
Lemma sha_sent_iff_read_succeeded_fails :
  ~ sha_sent_iff_read_succeeded (R := Engine.reference)
      (scripted [directory; rejected])
      "iitjeelf" "physics" "questions/" (Some (EString "UTE=")) token
      "Add question:  to PHYSICS" [].
Proof.
  unfold sha_sent_iff_read_succeeded. intros [Hsent _].
  destruct Hsent as (data & s & Hin & Hsha).
  - eexists. split; reflexivity.
  - vm_compute in Hin.
    destruct Hin as [Hget | [Hput | []]]; [discriminate Hget |].
    injection Hput as <-. discriminate Hsha.
Qed.

Lemma uploadFile_sha_sent_witness :
  exists data,
    snd (uploadFile (R := Engine.reference) (scripted [file_exists; written])
           "iitjeelf" "physics" "questions/q1.txt" (Some (EString "UTE="))
           token "Add question: q1.txt to PHYSICS" [])
    = [ github_get
          "https://api.github.com/repos/iitjeelf/physics/contents/questions/q1.txt"
          token;
        github_send PUT
          "https://api.github.com/repos/iitjeelf/physics/contents/questions/q1.txt"
          token (BUpload data) ] /\
    ud_sha data = Some (JStr "95b966ae1c166bd92f8ae7d1c313e738c731dfc3").
Proof.
  destruct (uploadFile_sha_sent (R := Engine.reference)
              (scripted [file_exists; written])
              "iitjeelf" "physics" "questions/q1.txt" (Some (EString "UTE="))
              token "Add question: q1.txt to PHYSICS" [])
    as (data & Hsent & _ & _ & _ & Hsha & _).
  exists data. split; [exact Hsent |].
  apply Hsha. do 2 eexists.
  split; [reflexivity |]. split; [reflexivity |]. split; [reflexivity |].
  split; reflexivity.
Defined.

Lemma uploadFile_outcome_witness :
  uploadFile (R := Engine.reference) (scripted [missing; rejected])
    "iitjeelf" "physics" "questions/q1.txt" (Some (EString "UTE=")) token
    "Add question: q1.txt to PHYSICS" []
  = (Throw {| exn_name := "Error";
              exn_message := "GitHub API error: 422" |},
     [ github_get (fileUrl "iitjeelf" "physics" "questions/q1.txt") token;
       github_send PUT (fileUrl "iitjeelf" "physics" "questions/q1.txt")
         token
         (BUpload
            (uploadData "Add question: q1.txt to PHYSICS"
               (Some (EString "UTE=")) (Some JNull))) ]) /\
  uploadFile (R := Engine.reference) (scripted [missing; written])
    "iitjeelf" "physics" "questions/q1.txt" (Some (EString "UTE=")) token
    "Add question: q1.txt to PHYSICS" []
  = (Ok {| res_url :=
             Some (JStr "https://github.com/iitjeelf/physics/blob/main/f");
           res_sha :=
             Some (JStr "7c258f7a0b1b2c1f4a2f9e5d2fbb5b1c0f7d3e11");
           res_path := "questions/q1.txt" |},
     [ github_get (fileUrl "iitjeelf" "physics" "questions/q1.txt") token;
       github_send PUT (fileUrl "iitjeelf" "physics" "questions/q1.txt")
         token
         (BUpload
            (uploadData "Add question: q1.txt to PHYSICS"
               (Some (EString "UTE=")) (Some JNull))) ]).
Proof.
  split.
  - refine (proj1 (uploadFile_outcome (R := Engine.reference)
                     (scripted [missing; rejected])
                     "iitjeelf" "physics" "questions/q1.txt"
                     (Some (EString "UTE=")) token
                     "Add question: q1.txt to PHYSICS" [] _ (Some JNull) _
                     eq_refl eq_refl) eq_refl _ eq_refl).
  - destruct (proj2 (uploadFile_outcome (R := Engine.reference)
                       (scripted [missing; written])
                       "iitjeelf" "physics" "questions/q1.txt"
                       (Some (EString "UTE=")) token
                       "Add question: q1.txt to PHYSICS" [] _ (Some JNull) _
                       eq_refl eq_refl) eq_refl _ _ eq_refl eq_refl)
      as (html_url & sha_ & Hurl & Hsha & Hrun).
    + discriminate.
    + injection Hurl as <-. injection Hsha as <-. exact Hrun.
Defined.

Lemma missing_token_no_request_witness :
  GITHUB_TOKEN (ctx_env (unconfigured answer_form)) = None /\
  onRequestPost (R := Engine.reference) (scripted [])
    (unconfigured answer_form) []
  = (Ok {| resp_status := 500;
           resp_headers :=
             [ ("Content-Type", "application/json");
               ("Access-Control-Allow-Origin", "*") ];
           resp_body := BodyFailure "No GitHub token" |},
     []).
Proof.
  split; [reflexivity |].
  apply (missing_token_no_request (R := Engine.reference) (scripted [])
           (unconfigured answer_form) []).
  left. reflexivity.
Defined.

Lemma missing_class_fails_witness :
  ctx_formData (request classless_form) = Ok classless_form /\
  get classless_form "class" = None /\
  onRequestPost (R := Engine.reference) (scripted [repo_exists])
    (request classless_form) []
  = (Ok {| resp_status := 500;
           resp_headers :=
             [ ("Content-Type", "application/json");
               ("Access-Control-Allow-Origin", "*") ];
           resp_body :=
             BodyFailure
               "Cannot read properties of null (reading 'toLowerCase')" |},
     []).
Proof.
  split; [reflexivity |]. split; [reflexivity |].
  exact (proj1 (proj2 (missing_class_fails (R := Engine.reference)
                         (scripted [repo_exists]) (request classless_form)
                         classless_form [] eq_refl eq_refl))
           token eq_refl).
Defined.

Lemma response_shaping_witness :
  tryBlock (R := Engine.reference) (scripted [missing; rejected])
    (request question_form) []
  = (Throw {| exn_name := "Error";
              exn_message :=
                "Failed to create repo physics: Repository creation failed." |},
     [ github_get (repoUrl "iitjeelf" "physics") token;
       github_send POST "https://api.github.com/user/repos" token
         (createRepo (R := Engine.reference) "physics") ]) /\
  onRequestPost (R := Engine.reference) (scripted [missing; rejected])
    (request question_form) []
  = (Ok {| resp_status := 500;
           resp_headers :=
             [ ("Content-Type", "application/json");
               ("Access-Control-Allow-Origin", "*") ];
           resp_body :=
             BodyFailure
               "Failed to create repo physics: Repository creation failed." |},
     [ github_get (repoUrl "iitjeelf" "physics") token;
       github_send POST "https://api.github.com/user/repos" token
         (createRepo (R := Engine.reference) "physics") ]).
Proof.
  split; [reflexivity |].
  exact (proj2 (proj1 (proj2 (proj2 (response_shaping
                                       (R := Engine.reference)
                                       (scripted [missing; rejected])
                                       (request question_form) [])))
                  _ _ eq_refl)
           eq_refl).
Defined.

Lemma stored_path_witness :
  configured (GITHUB_TOKEN (ctx_env (request answer_form))) = Some token /\
  get answer_form "class" = Some (EString "Physics") /\
  exists data rest,
    snd (onRequestPost (R := Engine.reference)
           (scripted [repo_exists; missing; written; drive_done])
           (request answer_form) [])
    = ([ github_get "https://api.github.com/repos/iitjeelf/physics" token ]
         ++ [ github_get
                "https://api.github.com/repos/iitjeelf/physics/contents/answers/answer-key-2024-05-01.txt"
                token;
              github_send PUT
                "https://api.github.com/repos/iitjeelf/physics/contents/answers/answer-key-2024-05-01.txt"
                token (BUpload data) ]
         ++ rest)%list.
Proof.
  split; [reflexivity |]. split; [reflexivity |].
  destruct (proj2 (stored_path (R := Engine.reference)
                     (scripted [repo_exists; missing; written; drive_done])
                     (request answer_form) token answer_form "Physics" []
                     eq_refl eq_refl eq_refl)
              true _ eq_refl)
    as (data & rest & Hsent & _).
  exists data, rest. exact Hsent.
Defined.

Lemma question_without_filename_witness :
  get nameless_form "filename" = None /\
  strict_eq (form_or (get nameless_form "type") (EString "question")) "answer"
  = false /\
  exists data,
    snd (onRequestPost (R := Engine.reference)
           (scripted [repo_exists; missing; written])
           (request nameless_form) [])
    = [ github_get "https://api.github.com/repos/iitjeelf/physics" token;
        github_get
          "https://api.github.com/repos/iitjeelf/physics/contents/questions/null"
          token;
        github_send PUT
          "https://api.github.com/repos/iitjeelf/physics/contents/questions/null"
          token (BUpload data) ] /\
    ud_message data = "Add question: null to PHYSICS".
Proof.
  split; [reflexivity |]. split; [reflexivity |].
  destruct (question_without_filename (R := Engine.reference)
              (scripted [repo_exists; missing; written])
              (request nameless_form) token nameless_form "Physics" [] _ true
              eq_refl eq_refl eq_refl eq_refl eq_refl eq_refl)
    as (data & Hsent & Hmessage & _).
  exists data. split; [exact Hsent | exact Hmessage].
Defined.

Lemma webhook_failure_isolated_witness :
  atob (Runtime := Engine.reference) (show (get answer_form "content"))
  = Ok "1. A
2. C" /\
  onRequestPost (R := Engine.reference)
    (scripted [repo_exists; missing; written; drive_page])
    (request answer_form) []
  = (Ok {| resp_status := 200;
           resp_headers :=
             [ ("Content-Type", "application/json");
               ("Access-Control-Allow-Origin", "*") ];
           resp_body :=
             BodySuccess
               {| sd_message := "Uploaded to PHYSICS";
                  sd_github :=
                    {| res_url :=
                         Some
                           (JStr
                              "https://github.com/iitjeelf/physics/blob/main/f");
                       res_sha :=
                         Some
                           (JStr "7c258f7a0b1b2c1f4a2f9e5d2fbb5b1c0f7d3e11");
                       res_path := "answers/answer-key-2024-05-01.txt" |};
                  sd_drive := JNull |} |},
     [ github_get (repoUrl "iitjeelf" "physics") token;
       github_get
         (fileUrl "iitjeelf" "physics" "answers/answer-key-2024-05-01.txt")
         token;
       github_send PUT
         (fileUrl "iitjeelf" "physics" "answers/answer-key-2024-05-01.txt")
         token
         (BUpload
            (uploadData "Add answer key for PHYSICS - 2024-05-01"
               (Some (EString "MS4gQQoyLiBD")) (Some JNull)));
       driveRequest (R := Engine.reference) script "physics"
         (EString "2024-05-01") "1. A
2. C" ]).
Proof.
  split; [reflexivity |].
  refine (proj2 (proj2 (webhook_failure_isolated (R := Engine.reference)
                          (scripted [repo_exists; missing; written;
                                     drive_page])
                          (request answer_form) token answer_form "Physics"
                          [] _ _ true _
                          eq_refl eq_refl eq_refl eq_refl eq_refl eq_refl)
                   script eq_refl)
            _ eq_refl I).
Defined.

Lemma webhook_only_for_answers_witness :
  exists response success,
    fst (onRequestPost (R := Engine.reference)
           (scripted [repo_exists; missing; written])
           (request question_form) [])
    = Ok response /\
    resp_body response = BodySuccess success /\
    sd_github success
    = {| res_url :=
           Some (JStr "https://github.com/iitjeelf/physics/blob/main/f");
         res_sha := Some (JStr "7c258f7a0b1b2c1f4a2f9e5d2fbb5b1c0f7d3e11");
         res_path := "questions/q1.txt" |} /\
    sd_drive success = JNull.
Proof.
  do 2 eexists. split; [reflexivity |]. split; [reflexivity |].
  split; [reflexivity |].
  apply (proj2 (webhook_only_for_answers (R := Engine.reference)
                  (scripted [repo_exists; missing; written])
                  (request question_form) [])
           (or_intror
              (fun formData (H : Ok question_form = Ok formData) =>
                 match H in _ = r
                   return match r with
                          | Ok f =>
                              strict_eq
                                (form_or (get f "type") (EString "question"))
                                "answer" = false
                          | Throw _ => True
                          end
                 with eq_refl => eq_refl end))
           _ _ eq_refl eq_refl).
Defined.

Lemma ensureRepo_outcome_witness :
  not_found
    (scripted [missing; rejected] []
       (github_get (repoUrl "iitjeelf" "physics") token)) /\
  ensureRepo (R := Engine.reference) (scripted [missing; rejected])
    "iitjeelf" "physics" token []
  = (Throw {| exn_name := "Error";
              exn_message :=
                "Failed to create repo physics: Repository creation failed." |},
     [ github_get (repoUrl "iitjeelf" "physics") token;
       github_send POST "https://api.github.com/user/repos" token
         (createRepo (R := Engine.reference) "physics") ]) /\
  onRequestPost (R := Engine.reference) (scripted [missing; rejected])
    (request question_form) []
  = (Ok {| resp_status := 500;
           resp_headers :=
             [ ("Content-Type", "application/json");
               ("Access-Control-Allow-Origin", "*") ];
           resp_body :=
             BodyFailure
               "Failed to create repo physics: Repository creation failed." |},
     [ github_get (repoUrl "iitjeelf" "physics") token;
       github_send POST "https://api.github.com/user/repos" token
         (createRepo (R := Engine.reference) "physics") ]).
Proof.
  split; [reflexivity |].
  pose proof (proj2 (proj2 (ensureRepo_outcome (R := Engine.reference)
                              (scripted [missing; rejected])
                              "iitjeelf" "physics" token []))
                eq_refl _ _ _ _ eq_refl eq_refl eq_refl eq_refl eq_refl)
    as [Hthrow Hanswer].
  split; [exact Hthrow |].
  exact (Hanswer (request question_form) question_form "Physics"
           eq_refl eq_refl eq_refl eq_refl eq_refl).
Defined.

End Runs.

(** * Further properties of the handler *)

Section Coverage.
Context {R : Runtime}.
Variable net : Network.

(** ** Whole runs *)

(** The handler in terms of what it derives from the context and the form:
    both kinds of upload call [uploadFile] once, on the path and with the
    message of their kind, and only an answer goes on to the webhook. *)
Lemma onRequestPost_steps
  (context : Context) (token : string) (formData : FormData) (c : string)
  (sent : list Request) :
  configured (GITHUB_TOKEN (ctx_env context)) = Some token ->
  ctx_formData context = Ok formData ->
  get formData "class" = Some (EString c) ->
  let className := toLowerCase c in
  let content := get formData "content" in
  let answer githubResult driveResult :=
    successResponse
      {| sd_message := "Uploaded to " ++ toUpperCase className;
         sd_github := githubResult;
         sd_drive := driveResult |} in
  onRequestPost net context sent
  = match ensureRepo net (account context) className token sent with
    | (Throw e, sent1) => (Ok (errorResponse (exn_message e)), sent1)
    | (Ok _, sent1) =>
        match
          uploadFile net (account context) className
            (path_of context formData) content token
            (message_of context formData className) sent1
        with
        | (Throw e, sent2) => (Ok (errorResponse (exn_message e)), sent2)
        | (Ok githubResult, sent2) =>
            if is_answer formData
            then
              match
                sendToDrive net
                  (configured (GOOGLE_SCRIPT_URL (ctx_env context)))
                  className (date_of context formData) content sent2
              with
              | (Throw e, sent3) =>
                  (Ok (errorResponse (exn_message e)), sent3)
              | (Ok driveResult, sent3) =>
                  (Ok (answer githubResult driveResult), sent3)
              end
            else (Ok (answer githubResult JNull), sent2)
        end
    end.
Proof.
  intros Htoken Hform Hclass className content answer.
  rewrite (onRequestPost_run net context token formData c sent Htoken Hform
             Hclass).
  unfold path_of, message_of, is_answer, date_of, account.
  fold className content.
  destruct (ensureRepo net _ className token sent) as [[found | e] sent1];
    [| reflexivity].
  destruct (strict_eq _ "answer"); reflexivity.
Qed.

(** When [ensureRepo] throws, the creation of the repository was
    attempted. *)
Lemma ensureRepo_throws_after_create
  (username repoName token : string) (sent sent1 : list Request) (e : Exn) :
  ensureRepo net username repoName token sent = (Throw e, sent1) ->
  sent1
  = (sent ++ [ github_get (repoUrl username repoName) token;
               github_send POST "https://api.github.com/user/repos" token
                 (createRepo repoName) ])%list.
Proof.
  intros Hrun.
  destruct (net sent (github_get (repoUrl username repoName) token))
    as [checkResponse | e0] eqn:Hnet.
  - destruct (ok checkResponse) eqn:Hok.
    + rewrite (ensureRepo_found net username repoName token sent
                 checkResponse Hnet Hok) in Hrun.
      discriminate Hrun.
    + rewrite (ensureRepo_create net username repoName token sent) in Hrun
        by (unfold not_found; rewrite Hnet; exact Hok).
      destruct (net _ _) as [cr | e1];
        [destruct (ok cr);
         [| destruct (json_of cr) as [error | e1];
            [destruct (prop (Some error) "message") as [m | e1];
             [destruct (interpolate m) as [text | e1] |] |]] |];
        first [discriminate Hrun | injection Hrun as _ <-; reflexivity].
  - rewrite (ensureRepo_create net username repoName token sent) in Hrun
      by (unfold not_found; rewrite Hnet; exact I).
    destruct (net _ _) as [cr | e1];
      [destruct (ok cr);
       [| destruct (json_of cr) as [error | e1];
          [destruct (prop (Some error) "message") as [m | e1];
           [destruct (interpolate m) as [text | e1] |] |]] |];
      first [discriminate Hrun | injection Hrun as _ <-; reflexivity].
Qed.

(** The requests of a run, in the order they are sent.  A run that sends
    anything starts with the check of the repository; the creation follows
    when the check did not see it; then come the read and the write of the
    file, unless the creation failed; the call of the webhook comes last and
    only in a run that is answered with success. *)
Lemma onRequestPost_sent (context : Context) (sent : list Request) :
  exists new,
    snd (onRequestPost net context sent) = (sent ++ new)%list /\
    (new = [] /\
     (exists message,
         fst (onRequestPost net context sent)
         = Ok (errorResponse message))
     \/
     exists token formData c,
       configured (GITHUB_TOKEN (ctx_env context)) = Some token /\
       ctx_formData context = Ok formData /\
       get formData "class" = Some (EString c) /\
       let className := toLowerCase c in
       let check := github_get (repoUrl (account context) className) token in
       let create :=
         github_send POST "https://api.github.com/user/repos" token
           (createRepo className) in
       let url :=
         fileUrl (account context) className (path_of context formData) in
       let upload sha :=
         [ github_get url token;
           github_send PUT url token
             (BUpload
                (uploadData (message_of context formData className)
                   (get formData "content") sha)) ] in
       (new = [check; create] /\
        exists message,
          fst (onRequestPost net context sent) = Ok (errorResponse message))
       \/
       exists repo sha,
         (repo = [check] \/ repo = [check; create]) /\
         (new = (repo ++ upload sha)%list \/
          exists scriptUrl decoded data,
            is_answer formData = true /\
            configured (GOOGLE_SCRIPT_URL (ctx_env context))
            = Some scriptUrl /\
            atob (show (get formData "content")) = Ok decoded /\
            fst (onRequestPost net context sent)
            = Ok (successResponse data) /\
            new
            = (repo ++ upload sha
                 ++ [driveRequest scriptUrl className
                       (date_of context formData) decoded])%list)).
Proof.
  destruct (configured (GITHUB_TOKEN (ctx_env context))) as [token |]
    eqn:Htoken.
  2:{ rewrite (onRequestPost_no_token net context sent Htoken).
      exists []. rewrite app_nil_r. split; [reflexivity |].
      left. split; [reflexivity | eexists; reflexivity]. }
  destruct (ctx_formData context) as [formData | e] eqn:Hform.
  2:{ rewrite (onRequestPost_form_throws net context token e sent Htoken)
        by (rewrite Hform; reflexivity).
      exists []. rewrite app_nil_r. split; [reflexivity |].
      left. split; [reflexivity | eexists; reflexivity]. }
  destruct (call_toLowerCase (get formData "class")) as [className | e]
    eqn:Hcall.
  2:{ rewrite (onRequestPost_form_throws net context token e sent Htoken)
        by (rewrite Hform; exact Hcall).
      exists []. rewrite app_nil_r. split; [reflexivity |].
      left. split; [reflexivity | eexists; reflexivity]. }
  destruct (get formData "class") as [[c |] |] eqn:Hclass;
    try discriminate Hcall.
  clear Hcall className.
  rewrite (onRequestPost_steps context token formData c sent Htoken Hform
             Hclass).
  pose proof (ensureRepo_requests net (account context) (toLowerCase c) token
                sent) as Hrepo.
  pose proof (ensureRepo_throws_after_create (account context)
                (toLowerCase c) token sent) as Hthrow.
  destruct (ensureRepo net (account context) (toLowerCase c) token sent)
    as [[found | e] sent1].
  2:{ rewrite (Hthrow _ e eq_refl). eexists. split; [reflexivity |].
      right. exists token, formData, c. repeat split; auto.
      left. split; [reflexivity | eexists; reflexivity]. }
  simpl snd in Hrepo. clear Hthrow.
  assert (Hsent1 : exists repo,
             sent1 = (sent ++ repo)%list /\
             (repo = [github_get (repoUrl (account context) (toLowerCase c))
                        token]
              \/ repo = [github_get
                           (repoUrl (account context) (toLowerCase c)) token;
                         github_send POST "https://api.github.com/user/repos"
                           token (createRepo (toLowerCase c))]))
    by (destruct Hrepo as [-> | ->]; eexists; split; eauto).
  destruct Hsent1 as (repo & -> & Hshape). clear Hrepo.
  destruct (uploadFile_requests net (account context) (toLowerCase c)
              (path_of context formData) (get formData "content") token
              (message_of context formData (toLowerCase c))
              (sent ++ repo)%list)
    as (sha & _ & Hupload).
  destruct (uploadFile net (account context) (toLowerCase c)
              (path_of context formData) (get formData "content") token
              (message_of context formData (toLowerCase c))
              (sent ++ repo)%list)
    as [[githubResult | e] sent2]; simpl snd in Hupload; subst sent2.
  2:{ eexists. rewrite <- app_assoc. split; [reflexivity |].
      right. exists token, formData, c. repeat split; auto.
      right. exists repo, sha. split; [exact Hshape | left; reflexivity]. }
  destruct (is_answer formData) eqn:Hanswer.
  2:{ eexists. rewrite <- app_assoc. split; [reflexivity |].
      right. exists token, formData, c. repeat split; auto.
      right. exists repo, sha. split; [exact Hshape | left; reflexivity]. }
  match goal with
  | |- context [sendToDrive net ?s ?n ?d ?ct ?st] =>
      destruct (sendToDrive_total net s n d ct st)
        as (driveResult & sent3 & Hdrive & Hsent3)
  end.
  rewrite Hdrive.
  destruct Hsent3 as [-> | (scriptUrl & decoded & Hscript & Hatob & ->)].
  - eexists. rewrite <- app_assoc. split; [reflexivity |].
    right. exists token, formData, c. repeat split; auto.
    right. exists repo, sha. split; [exact Hshape | left; reflexivity].
  - eexists. rewrite <- !app_assoc. split; [reflexivity |].
    right. exists token, formData, c. repeat split; auto.
    right. exists repo, sha. split; [exact Hshape |].
    right. exists scriptUrl, decoded. eexists.
    repeat split; eauto.
Qed.

Lemma prefix_append (p x : string) : String.prefix p (p ++ x) = true.
Proof.
  induction p as [| a p IH]; simpl.
  - destruct x; reflexivity.
  - destruct (ascii_dec a a) as [_ | Hne]; [exact IH | contradiction].
Qed.

Lemma github_get_to_host (path token : string) :
  to_host (github_get ("https://api.github.com/" ++ path) token) = true.
Proof. apply prefix_append. Qed.

Lemma github_send_to_host
  (method : Method) (path token : string) (body : Body) :
  to_host (github_send method ("https://api.github.com/" ++ path) token body)
  = true.
Proof. apply prefix_append. Qed.

(** X1.  The access token goes to the hosting API and nowhere else: every
    request of a run is either the call of the webhook, which has no
    [Authorization] header, or a request to [https://api.github.com/] whose
    [Authorization] header is [token ] followed by the configured token. *)
Theorem token_confined (context : Context) (sent : list Request) :
  exists new,
    snd (onRequestPost net context sent) = (sent ++ new)%list /\
    forall request,
      In request new ->
      is_drive request = true /\ header "Authorization" request = None
      \/
      is_drive request = false /\
      to_host request = true /\
      exists token,
        configured (GITHUB_TOKEN (ctx_env context)) = Some token /\
        header "Authorization" request = Some ("token " ++ token).
Proof.
  destruct (onRequestPost_sent context sent) as (new & Hsent & Hnew).
  exists new. split; [exact Hsent |]. intros request Hin.
  destruct Hnew as [[-> _] | (token & formData & c & Htoken & _ & _ & Hnew)];
    [destruct Hin |].
  cbv zeta in Hnew.
  assert (Hcheck :
    forall request,
      request
      = github_get (repoUrl (account context) (toLowerCase c)) token \/
      request
      = github_send POST "https://api.github.com/user/repos" token
          (createRepo (toLowerCase c)) ->
      is_drive request = false /\
      to_host request = true /\
      exists token0,
        Some token = Some token0 /\
        header "Authorization" request = Some ("token " ++ token0)).
  { intros r [-> | ->]; (split; [reflexivity |]); split.
    - exact (github_get_to_host
               ("repos/" ++ account context ++ "/" ++ toLowerCase c) token).
    - exists token. split; reflexivity.
    - exact (github_send_to_host POST "user/repos" token _).
    - exists token. split; reflexivity. }
  assert (Hupload :
    forall request sha,
      In request
        [ github_get
            (fileUrl (account context) (toLowerCase c)
               (path_of context formData)) token;
          github_send PUT
            (fileUrl (account context) (toLowerCase c)
               (path_of context formData)) token
            (BUpload
               (uploadData (message_of context formData (toLowerCase c))
                  (get formData "content") sha)) ] ->
      is_drive request = false /\
      to_host request = true /\
      exists token0,
        Some token = Some token0 /\
        header "Authorization" request = Some ("token " ++ token0)).
  { intros r sha [<- | [<- | []]]; (split; [reflexivity |]); split.
    - exact (github_get_to_host
               ("repos/" ++ account context ++ "/" ++ toLowerCase c
                  ++ "/contents/" ++ path_of context formData) token).
    - exists token. split; reflexivity.
    - exact (github_send_to_host PUT
               ("repos/" ++ account context ++ "/" ++ toLowerCase c
                  ++ "/contents/" ++ path_of context formData) token _).
    - exists token. split; reflexivity. }
  assert (Hrepo :
    forall repo,
      repo = [github_get (repoUrl (account context) (toLowerCase c)) token]
      \/ repo
         = [ github_get (repoUrl (account context) (toLowerCase c)) token;
             github_send POST "https://api.github.com/user/repos" token
               (createRepo (toLowerCase c)) ] ->
      forall request, In request repo ->
      is_drive request = false /\
      to_host request = true /\
      exists token0,
        Some token = Some token0 /\
        header "Authorization" request = Some ("token " ++ token0)).
  { intros repo [-> | ->] r Hr.
    - destruct Hr as [<- | []]. apply Hcheck. left. reflexivity.
    - destruct Hr as [<- | [<- | []]]; apply Hcheck; auto. }
  rewrite Htoken.
  destruct Hnew as [[-> _] | (repo & sha & Hshape & Hnew)].
  - right. apply (Hrepo _ (or_intror eq_refl) request Hin).
  - destruct Hnew as [-> | (scriptUrl & decoded & data & _ & _ & _ & _ & ->)];
      apply in_app_or in Hin; destruct Hin as [Hin | Hin].
    + right. exact (Hrepo repo Hshape request Hin).
    + right. exact (Hupload request sha Hin).
    + right. exact (Hrepo repo Hshape request Hin).
    + apply in_app_or in Hin. destruct Hin as [Hin | [<- | []]].
      * right. exact (Hupload request sha Hin).
      * left. split; reflexivity.
Qed.


(** X7.  The webhook is called only in a run that is answered with the
    success envelope: a run answered with a failure has sent nothing to the
    webhook. *)
Theorem webhook_implies_success (context : Context) (sent : list Request) :
  exists new,
    snd (onRequestPost net context sent) = (sent ++ new)%list /\
    ((exists request, In request new /\ is_drive request = true) ->
     exists data,
       fst (onRequestPost net context sent) = Ok (successResponse data) /\
       resp_status (successResponse data) = 200%N).
Proof.
  destruct (onRequestPost_sent context sent) as (new & Hsent & Hnew).
  exists new. split; [exact Hsent |]. intros (request & Hin & Hdrive).
  destruct Hnew as [[-> _] | (token & formData & c & _ & _ & _ & Hnew)];
    [destruct Hin |].
  cbv zeta in Hnew.
  destruct Hnew as [[-> _] | (repo & sha & Hshape & Hnew)].
  - destruct Hin as [<- | [<- | []]]; discriminate Hdrive.
  - destruct Hnew
      as [-> | (scriptUrl & decoded & data & _ & _ & _ & Hfst & ->)].
    + exfalso. apply in_app_or in Hin.
      destruct Hin as [Hin | [<- | [<- | []]]]; try discriminate Hdrive.
      destruct Hshape as [-> | ->].
      * destruct Hin as [<- | []]; discriminate Hdrive.
      * destruct Hin as [<- | [<- | []]]; discriminate Hdrive.
    + exists data. split; [exact Hfst | reflexivity].
Qed.

(** ** Success and failure of a run *)

(** X3.  A run is answered with the success envelope exactly when a token
    is configured, the form was read, its class is a string, [ensureRepo]
    returned and [uploadFile] returned.  The envelope then carries the
    message [Uploaded to {CLASS}], the record [uploadFile] returned, and as
    [drive] what the webhook step left for an answer, [null] for a
    question. *)
Theorem success_iff
  (context : Context) (sent : list Request) (data : SuccessData) :
  fst (onRequestPost net context sent) = Ok (successResponse data) <->
  exists token formData c found sent1 sent2,
    configured (GITHUB_TOKEN (ctx_env context)) = Some token /\
    ctx_formData context = Ok formData /\
    get formData "class" = Some (EString c) /\
    ensureRepo net (account context) (toLowerCase c) token sent
    = (Ok found, sent1) /\
    uploadFile net (account context) (toLowerCase c)
      (path_of context formData) (get formData "content") token
      (message_of context formData (toLowerCase c)) sent1
    = (Ok (sd_github data), sent2) /\
    sd_message data = "Uploaded to " ++ toUpperCase (toLowerCase c) /\
    (if is_answer formData
     then
       fst (sendToDrive net
              (configured (GOOGLE_SCRIPT_URL (ctx_env context)))
              (toLowerCase c) (date_of context formData)
              (get formData "content") sent2)
       = Ok (sd_drive data)
     else sd_drive data = JNull).
Proof.
  split.
  - destruct (configured (GITHUB_TOKEN (ctx_env context))) as [token |]
      eqn:Htoken.
    2:{ rewrite (onRequestPost_no_token net context sent Htoken).
        discriminate. }
    destruct (ctx_formData context) as [formData | e] eqn:Hform.
    2:{ rewrite (onRequestPost_form_throws net context token e sent Htoken)
          by (rewrite Hform; reflexivity).
        discriminate. }
    destruct (call_toLowerCase (get formData "class")) as [className | e]
      eqn:Hcall.
    2:{ rewrite (onRequestPost_form_throws net context token e sent Htoken)
          by (rewrite Hform; exact Hcall).
        discriminate. }
    destruct (get formData "class") as [[c |] |] eqn:Hclass;
      try discriminate Hcall.
    clear Hcall className.
    rewrite (onRequestPost_steps context token formData c sent Htoken Hform
               Hclass).
    destruct (ensureRepo net (account context) (toLowerCase c) token sent)
      as [[found | e] sent1] eqn:Hrepo; [| discriminate].
    destruct (uploadFile net (account context) (toLowerCase c)
                (path_of context formData) (get formData "content") token
                (message_of context formData (toLowerCase c)) sent1)
      as [[githubResult | e] sent2] eqn:Hupload; [| discriminate].
    destruct (is_answer formData) eqn:Hanswer.
    + destruct (sendToDrive net _ (toLowerCase c) _ _ sent2)
        as [[driveResult | e] sent3] eqn:Hdrive; [| discriminate].
      intros H. injection H as <-.
      exists token, formData, c, found, sent1, sent2.
      rewrite Hanswer, Hdrive. repeat split; auto.
    + intros H. injection H as <-.
      exists token, formData, c, found, sent1, sent2.
      rewrite Hanswer. repeat split; auto.
  - intros (token & formData & c & found & sent1 & sent2 & Htoken & Hform
            & Hclass & Hrepo & Hupload & Hmessage & Hdrive).
    rewrite (onRequestPost_steps context token formData c sent Htoken Hform
               Hclass).
    rewrite Hrepo, Hupload. destruct data as [message github drive].
    simpl in Hmessage, Hdrive |- *. subst message.
    destruct (is_answer formData).
    + destruct (sendToDrive net _ (toLowerCase c) _ _ sent2)
        as [[driveResult | e] sent3]; simpl in Hdrive;
        [injection Hdrive as -> | discriminate Hdrive].
      reflexivity.
    + subst drive. reflexivity.
Qed.

(** A creation that is answered without success makes [ensureRepo]
    throw, whatever the body of the answer. *)
Lemma ensureRepo_create_refused
  (username repoName token : string) (sent : list Request)
  (createResponse : FetchResponse) :
  let check := github_get (repoUrl username repoName) token in
  let create :=
    github_send POST "https://api.github.com/user/repos" token
      (createRepo repoName) in
  not_found (net sent check) ->
  net (sent ++ [check])%list create = Ok createResponse ->
  ok createResponse = false ->
  exists e,
    ensureRepo net username repoName token sent
    = (Throw e, (sent ++ [check; create])%list).
Proof.
  intros check create Hnot Hcreate Hok.
  rewrite (ensureRepo_create net username repoName token sent Hnot).
  fold check create. rewrite Hcreate, Hok.
  destruct (json_of createResponse) as [error | e]; [| eauto].
  destruct (prop (Some error) "message") as [m | e]; [| eauto].
  destruct (interpolate m) as [text | e]; eauto.
Qed.

(** X4.  [ensureRepo] returns exactly when the check of the repository
    reported success, or it did not and the creation reported success; what
    it returns is [true].  A body of either response plays no part. *)
Theorem ensureRepo_returns_iff
  (username repoName token : string) (sent : list Request) :
  let check := github_get (repoUrl username repoName) token in
  let create :=
    github_send POST "https://api.github.com/user/repos" token
      (createRepo repoName) in
  ((exists found,
       fst (ensureRepo net username repoName token sent) = Ok found)
   <->
   (exists checkResponse,
       net sent check = Ok checkResponse /\ ok checkResponse = true)
   \/
   (not_found (net sent check) /\
    exists createResponse,
      net (sent ++ [check])%list create = Ok createResponse /\
      ok createResponse = true)) /\
  (forall found,
      fst (ensureRepo net username repoName token sent) = Ok found ->
      found = true).
Proof.
  intros check create.
  assert (Hcases :
    (exists checkResponse,
        net sent check = Ok checkResponse /\ ok checkResponse = true)
    \/ not_found (net sent check)).
  { unfold not_found. destruct (net sent check) as [r | e]; [| auto].
    destruct (ok r) eqn:Hok; eauto. }
  destruct Hcases as [(checkResponse & Hnet & Hok) | Hnot].
  { rewrite (ensureRepo_found net username repoName token sent
               checkResponse Hnet Hok).
    split.
    - split; [intros _; left; eauto | intros _; eexists; reflexivity].
    - intros found H. injection H as <-. reflexivity. }
  assert (Hunseen :
    forall r, net sent check = Ok r -> ok r = true -> False).
  { intros r Hr Hrok. unfold not_found in Hnot. rewrite Hr in Hnot.
    congruence. }
  destruct (net (sent ++ [check])%list create) as [cr | e1] eqn:Hcreate.
  - destruct (ok cr) eqn:Hcr.
    + rewrite (ensureRepo_create net username repoName token sent Hnot).
      fold check create. rewrite Hcreate, Hcr. split.
      * split; [| intros _; eexists; reflexivity].
        intros _. right. split; [exact Hnot | eauto].
      * intros found H. injection H as <-. reflexivity.
    + destruct (ensureRepo_create_refused username repoName token sent cr
                  Hnot Hcreate Hcr) as [e Hrun].
      rewrite Hrun. split.
      * split.
        -- intros [found H]. discriminate H.
        -- intros [(r & Hr & Hrok) | (_ & r & Hr & Hrok)].
           ++ exfalso. exact (Hunseen r Hr Hrok).
           ++ injection Hr as <-. congruence.
      * intros found H. discriminate H.
  - rewrite (ensureRepo_create net username repoName token sent Hnot).
    fold check create. rewrite Hcreate. split.
    + split.
      * intros [found H]. discriminate H.
      * intros [(r & Hr & Hrok) | (_ & r & Hr & _)].
        -- exfalso. exact (Hunseen r Hr Hrok).
        -- discriminate Hr.
    + intros found H. discriminate H.
Qed.

(** X5.  A transport error on the creation of the repository is not
    swallowed as the one on its check is: [ensureRepo] throws it after the
    two requests, and a handler that called it for its class answers with
    the failure envelope made of its message and sends nothing more. *)
Theorem creation_transport_error
  (context : Context) (token : string) (formData : FormData) (c : string)
  (sent : list Request) (e : Exn) :
  configured (GITHUB_TOKEN (ctx_env context)) = Some token ->
  ctx_formData context = Ok formData ->
  get formData "class" = Some (EString c) ->
  let className := toLowerCase c in
  let check := github_get (repoUrl (account context) className) token in
  let create :=
    github_send POST "https://api.github.com/user/repos" token
      (createRepo className) in
  not_found (net sent check) ->
  net (sent ++ [check])%list create = Throw e ->
  ensureRepo net (account context) className token sent
  = (Throw e, (sent ++ [check; create])%list) /\
  onRequestPost net context sent
  = (Ok (errorResponse (exn_message e)), (sent ++ [check; create])%list).
Proof.
  intros Htoken Hform Hclass className check create Hnot Hcreate.
  assert (Hrun : ensureRepo net (account context) className token sent
                 = (Throw e, (sent ++ [check; create])%list)).
  { rewrite (ensureRepo_create net (account context) className token sent
               Hnot).
    fold check create. rewrite Hcreate. reflexivity. }
  split; [exact Hrun |].
  rewrite (onRequestPost_steps context token formData c sent Htoken Hform
             Hclass).
  fold className. rewrite Hrun. reflexivity.
Qed.

(** X6.  A write of the file that fails ends the run there, also for an
    answer with a webhook configured: when the PUT throws, the handler
    answers with the failure envelope made of that exception's message;
    when the PUT is answered without success and the text of its body can
    be read, it answers with status 500 and the message
    [GitHub API error: ] followed by the status code.  In both cases the
    PUT is the last request sent. *)
Theorem failed_write_ends_run
  (context : Context) (token : string) (formData : FormData) (c : string)
  (sent sent1 sent2 : list Request) (found : bool) (sha : value) :
  configured (GITHUB_TOKEN (ctx_env context)) = Some token ->
  ctx_formData context = Ok formData ->
  get formData "class" = Some (EString c) ->
  let className := toLowerCase c in
  let url :=
    fileUrl (account context) className (path_of context formData) in
  let put :=
    github_send PUT url token
      (BUpload
         (uploadData (message_of context formData className)
            (get formData "content") sha)) in
  ensureRepo net (account context) className token sent = (Ok found, sent1) ->
  checkFile net url token sent1 = (Ok sha, sent2) ->
  (forall e,
      net sent2 put = Throw e ->
      onRequestPost net context sent
      = (Ok (errorResponse (exn_message e)), (sent2 ++ [put])%list)) /\
  (forall uploadResponse errorText,
      net sent2 put = Ok uploadResponse ->
      ok uploadResponse = false ->
      text_of uploadResponse = Ok errorText ->
      onRequestPost net context sent
      = (Ok {| resp_status := 500;
               resp_headers :=
                 [ ("Content-Type", "application/json");
                   ("Access-Control-Allow-Origin", "*") ];
               resp_body :=
                 BodyFailure
                   ("GitHub API error: "
                      ++ show_status (status uploadResponse)) |},
         (sent2 ++ [put])%list)).
Proof.
  intros Htoken Hform Hclass className url put Hrepo Hcheck.
  rewrite (onRequestPost_steps context token formData c sent Htoken Hform
             Hclass).
  fold className. rewrite Hrepo. split.
  - intros e Hput.
    assert (Hrun :
      uploadFile net (account context) className (path_of context formData)
        (get formData "content") token
        (message_of context formData className) sent1
      = (Throw e, (sent2 ++ [put])%list)).
    { unfold uploadFile. fold url. unfold bind at 1. rewrite Hcheck.
      fold put. run_monad. rewrite Hput. reflexivity. }
    rewrite Hrun. reflexivity.
  - intros uploadResponse errorText Hput Hok Htext.
    rewrite (uploadFile_run net (account context) className
               (path_of context formData) (get formData "content") token
               (message_of context formData className) sent1 sent2 sha
               uploadResponse Hcheck Hput).
    rewrite Hok, Htext. reflexivity.
Qed.

(** X8.  The status of the webhook's response is not looked at: for an
    answer whose upload succeeded, with a script URL configured and a
    content that decodes, whatever JSON value the response parses to is the
    [drive] member of the success envelope, for a response that reports
    success and for one that does not. *)
Theorem webhook_status_ignored
  (context : Context) (token : string) (formData : FormData) (c : string)
  (sent sent1 sent2 : list Request) (found : bool)
  (githubResult : UploadResult) (scriptUrl decoded : string)
  (driveResponse : FetchResponse) (driveResult : json) :
  configured (GITHUB_TOKEN (ctx_env context)) = Some token ->
  ctx_formData context = Ok formData ->
  get formData "class" = Some (EString c) ->
  is_answer formData = true ->
  let className := toLowerCase c in
  let content := get formData "content" in
  let request :=
    driveRequest scriptUrl className (date_of context formData) decoded in
  ensureRepo net (account context) className token sent = (Ok found, sent1) ->
  uploadFile net (account context) className (path_of context formData)
    content token (message_of context formData className) sent1
  = (Ok githubResult, sent2) ->
  configured (GOOGLE_SCRIPT_URL (ctx_env context)) = Some scriptUrl ->
  atob (show content) = Ok decoded ->
  net sent2 request = Ok driveResponse ->
  json_of driveResponse = Ok driveResult ->
  onRequestPost net context sent
  = (Ok (successResponse
           {| sd_message := "Uploaded to " ++ toUpperCase className;
              sd_github := githubResult;
              sd_drive := driveResult |}),
     (sent2 ++ [request])%list).
Proof.
  intros Htoken Hform Hclass Hanswer className content request Hrepo Hupload
    Hscript Hatob Hnet Hjson.
  rewrite (onRequestPost_steps context token formData c sent Htoken Hform
             Hclass).
  fold className content. rewrite Hrepo, Hupload, Hanswer, Hscript.
  unfold sendToDrive. run_monad. rewrite Hatob. fold request.
  rewrite Hnet, Hjson. reflexivity.
Qed.

(** X9.  With a token configured, a request whose form cannot be read, or
    whose [class] field is a file, is answered with the failure envelope
    made of the message of the exception, the one [formData()] threw or the
    engine's for calling what is not a function, and sends no request. *)
Theorem unreadable_form_fails
  (context : Context) (token : string) (sent : list Request) :
  configured (GITHUB_TOKEN (ctx_env context)) = Some token ->
  (forall e,
      ctx_formData context = Throw e ->
      onRequestPost net context sent
      = (Ok (errorResponse (exn_message e)), sent)) /\
  (forall formData,
      ctx_formData context = Ok formData ->
      get formData "class" = Some EFile ->
      onRequestPost net context sent
      = (Ok (errorResponse
               (exn_message (engine_error (NotAFunction "toLowerCase")))),
         sent)).
Proof.
  intros Htoken. split.
  - intros e Hform.
    apply (onRequestPost_form_throws net context token e sent Htoken).
    rewrite Hform. reflexivity.
  - intros formData Hform Hclass.
    apply (onRequestPost_form_throws net context token _ sent Htoken).
    rewrite Hform, Hclass. reflexivity.
Qed.

(** ** Fields a kind of upload does not use *)

(** What the handler does before it branches on the kind depends on the
    environment and on the [class] field only. *)
Lemma onRequestPost_rejected_alike
  (context1 context2 : Context) (formData1 formData2 : FormData)
  (sent : list Request) :
  ctx_env context1 = ctx_env context2 ->
  ctx_formData context1 = Ok formData1 ->
  ctx_formData context2 = Ok formData2 ->
  get formData1 "class" = get formData2 "class" ->
  (forall c, get formData1 "class" <> Some (EString c)) \/
  configured (GITHUB_TOKEN (ctx_env context1)) = None ->
  onRequestPost net context1 sent = onRequestPost net context2 sent.
Proof.
  intros Henv Hform1 Hform2 Hclass Hearly.
  destruct (configured (GITHUB_TOKEN (ctx_env context1))) as [token |]
    eqn:Htoken.
  - destruct Hearly as [Hno | Hnone]; [| discriminate Hnone].
    destruct (call_toLowerCase (get formData1 "class")) as [x | e] eqn:Hcall.
    + destruct (get formData1 "class") as [[c |] |];
        [exfalso; exact (Hno c eq_refl) | discriminate | discriminate].
    + rewrite (onRequestPost_form_throws net context1 token e sent Htoken)
        by (rewrite Hform1; exact Hcall).
      rewrite Henv in Htoken. rewrite Hclass in Hcall.
      rewrite (onRequestPost_form_throws net context2 token e sent Htoken)
        by (rewrite Hform2; exact Hcall).
      reflexivity.
  - rewrite (onRequestPost_no_token net context1 sent Htoken).
    rewrite Henv in Htoken.
    rewrite (onRequestPost_no_token net context2 sent Htoken). reflexivity.
Qed.

(** X10.  An upload that is not an answer makes no use of the date: two
    requests in the same environment whose forms agree on [class],
    [filename], [content] and [type], and are not answers, send the same
    requests and get the same response, whatever their [date] fields and
    whatever the day. *)
Theorem question_ignores_date
  (context1 context2 : Context) (formData1 formData2 : FormData)
  (sent : list Request) :
  ctx_env context1 = ctx_env context2 ->
  ctx_formData context1 = Ok formData1 ->
  ctx_formData context2 = Ok formData2 ->
  get formData1 "class" = get formData2 "class" ->
  get formData1 "filename" = get formData2 "filename" ->
  get formData1 "content" = get formData2 "content" ->
  get formData1 "type" = get formData2 "type" ->
  is_answer formData1 = false ->
  onRequestPost net context1 sent = onRequestPost net context2 sent.
Proof.
  intros Henv Hform1 Hform2 Hclass Hname Hcontent Htype Hanswer.
  assert (Hanswer2 : is_answer formData2 = false)
    by (unfold is_answer in *; rewrite <- Htype; exact Hanswer).
  destruct (configured (GITHUB_TOKEN (ctx_env context1))) as [token |]
    eqn:Htoken.
  2:{ apply (onRequestPost_rejected_alike context1 context2 formData1
               formData2 sent Henv Hform1 Hform2 Hclass).
      right. exact Htoken. }
  destruct (get formData1 "class") as [[c |] |] eqn:Hc.
  2,3: apply (onRequestPost_rejected_alike context1 context2 formData1
                formData2 sent Henv Hform1 Hform2);
       [rewrite Hc; exact Hclass | left; rewrite Hc; discriminate].
  rewrite (onRequestPost_steps context1 token formData1 c sent Htoken Hform1
             Hc).
  rewrite Henv in Htoken.
  rewrite (onRequestPost_steps context2 token formData2 c sent Htoken Hform2
             (eq_sym Hclass)).
  unfold path_of, message_of, account.
  rewrite Hanswer, Hanswer2, Henv, Hname, Hcontent. reflexivity.
Qed.

(** X11.  An answer makes no use of the file name: two requests in the same
    environment and on the same day whose forms agree on [class],
    [content], [type] and [date], and are answers, send the same requests
    and get the same response, whatever their [filename] fields. *)
Theorem answer_ignores_filename
  (context1 context2 : Context) (formData1 formData2 : FormData)
  (sent : list Request) :
  ctx_env context1 = ctx_env context2 ->
  ctx_today context1 = ctx_today context2 ->
  ctx_formData context1 = Ok formData1 ->
  ctx_formData context2 = Ok formData2 ->
  get formData1 "class" = get formData2 "class" ->
  get formData1 "content" = get formData2 "content" ->
  get formData1 "type" = get formData2 "type" ->
  get formData1 "date" = get formData2 "date" ->
  is_answer formData1 = true ->
  onRequestPost net context1 sent = onRequestPost net context2 sent.
Proof.
  intros Henv Htoday Hform1 Hform2 Hclass Hcontent Htype Hdate Hanswer.
  assert (Hanswer2 : is_answer formData2 = true)
    by (unfold is_answer in *; rewrite <- Htype; exact Hanswer).
  destruct (configured (GITHUB_TOKEN (ctx_env context1))) as [token |]
    eqn:Htoken.
  2:{ apply (onRequestPost_rejected_alike context1 context2 formData1
               formData2 sent Henv Hform1 Hform2 Hclass).
      right. exact Htoken. }
  destruct (get formData1 "class") as [[c |] |] eqn:Hc.
  2,3: apply (onRequestPost_rejected_alike context1 context2 formData1
                formData2 sent Henv Hform1 Hform2);
       [rewrite Hc; exact Hclass | left; rewrite Hc; discriminate].
  rewrite (onRequestPost_steps context1 token formData1 c sent Htoken Hform1
             Hc).
  rewrite Henv in Htoken.
  rewrite (onRequestPost_steps context2 token formData2 c sent Htoken Hform2
             (eq_sym Hclass)).
  unfold path_of, message_of, date_of, account.
  rewrite Hanswer, Hanswer2, Henv, Htoday, Hdate, Hcontent. reflexivity.
Qed.

(** ** Bodies the host is not expected to send *)

(** X12.  A write that the host accepted is still reported as failed when
    the body of its answer cannot be used: [uploadFile] throws the parse
    error when the body is not JSON, and the engine's error for reading
    [html_url] when the parsed body has no [content] member or a [null]
    one.  Both requests have been sent by then. *)
Theorem unusable_success_body
  (username repoName filePath : string) (content : FormValue)
  (token message : string) (sent sent' : list Request) (sha : value)
  (uploadResponse : FetchResponse) :
  let url := fileUrl username repoName filePath in
  let put :=
    github_send PUT url token (BUpload (uploadData message content sha)) in
  checkFile net url token sent = (Ok sha, sent') ->
  net sent' put = Ok uploadResponse ->
  ok uploadResponse = true ->
  (forall e,
      json_of uploadResponse = Throw e ->
      uploadFile net username repoName filePath content token message sent
      = (Throw e, (sent' ++ [put])%list)) /\
  (forall result,
      json_of uploadResponse = Ok result ->
      prop (Some result) "content" = Ok None ->
      uploadFile net username repoName filePath content token message sent
      = (Throw (engine_error (ReadOfUndefined "html_url")),
         (sent' ++ [put])%list)) /\
  (forall result,
      json_of uploadResponse = Ok result ->
      prop (Some result) "content" = Ok (Some JNull) ->
      uploadFile net username repoName filePath content token message sent
      = (Throw (engine_error (ReadOfNull "html_url")),
         (sent' ++ [put])%list)).
Proof.
  intros url put Hcheck Hput Hok.
  pose proof (uploadFile_run net username repoName filePath content token
                message sent sent' sha uploadResponse Hcheck Hput) as Hrun.
  fold url put in Hrun. rewrite Hok in Hrun. simpl negb in Hrun.
  cbv iota in Hrun. split; [| split].
  - intros e Hjson. rewrite Hrun, Hjson. reflexivity.
  - intros result Hjson Hcontent. rewrite Hrun, Hjson, Hcontent. reflexivity.
  - intros result Hjson Hcontent. rewrite Hrun, Hjson, Hcontent. reflexivity.
Qed.

(** X13.  When the creation of the repository is answered without success,
    what [ensureRepo] throws follows the body and not the status: the parse
    error when the body is not JSON, and the error
    [Failed to create repo {name}: undefined] when the body is an object
    without a [message] member. *)
Theorem creation_failure_without_message
  (username repoName token : string) (sent : list Request)
  (createResponse : FetchResponse) :
  let check := github_get (repoUrl username repoName) token in
  let create :=
    github_send POST "https://api.github.com/user/repos" token
      (createRepo repoName) in
  not_found (net sent check) ->
  net (sent ++ [check])%list create = Ok createResponse ->
  ok createResponse = false ->
  (forall e,
      json_of createResponse = Throw e ->
      ensureRepo net username repoName token sent
      = (Throw e, (sent ++ [check; create])%list)) /\
  (forall members,
      json_of createResponse = Ok (JObj members) ->
      member "message" members = None ->
      ensureRepo net username repoName token sent
      = (Throw {| exn_name := "Error";
                  exn_message :=
                    "Failed to create repo " ++ repoName ++ ": undefined" |},
         (sent ++ [check; create])%list)).
Proof.
  intros check create Hnot Hcreate Hok.
  rewrite (ensureRepo_create net username repoName token sent Hnot).
  fold check create. rewrite Hcreate, Hok. split.
  - intros e Hjson. rewrite Hjson. reflexivity.
  - intros members Hjson Hmember. rewrite Hjson. unfold prop.
    rewrite Hmember. reflexivity.
Qed.

(** X14.  A request without a [content] field is not rejected for it: an
    answer whose repository is there has [content: null] written to its
    file, and when that write succeeds and a script URL is configured, the
    webhook is sent what [atob] makes of the text [null]. *)
Theorem content_absent_proceeds
  (context : Context) (token : string) (formData : FormData) (c : string)
  (sent sent1 sent2 : list Request) (found : bool)
  (githubResult : UploadResult) (scriptUrl decoded : string) :
  configured (GITHUB_TOKEN (ctx_env context)) = Some token ->
  ctx_formData context = Ok formData ->
  get formData "class" = Some (EString c) ->
  get formData "content" = None ->
  is_answer formData = true ->
  let className := toLowerCase c in
  let url :=
    fileUrl (account context) className (path_of context formData) in
  ensureRepo net (account context) className token sent = (Ok found, sent1) ->
  uploadFile net (account context) className (path_of context formData) None
    token (message_of context formData className) sent1
  = (Ok githubResult, sent2) ->
  configured (GOOGLE_SCRIPT_URL (ctx_env context)) = Some scriptUrl ->
  atob "null" = Ok decoded ->
  exists data,
    ud_content data = None /\
    snd (onRequestPost net context sent)
    = (sent1 ++ [ github_get url token;
                  github_send PUT url token (BUpload data);
                  driveRequest scriptUrl className
                    (date_of context formData) decoded ])%list.
Proof.
  intros Htoken Hform Hclass Hcontent Hanswer className url Hrepo Hupload
    Hscript Hatob.
  rewrite (onRequestPost_steps context token formData c sent Htoken Hform
             Hclass).
  fold className. rewrite Hrepo, Hcontent, Hupload, Hanswer, Hscript.
  destruct (uploadFile_requests net (account context) className
              (path_of context formData) None token
              (message_of context formData className) sent1)
    as (sha & _ & Hsent).
  rewrite Hupload in Hsent. simpl snd in Hsent. subst sent2.
  exists (uploadData (message_of context formData className) None sha).
  split; [reflexivity |].
  unfold sendToDrive. run_monad. simpl show. rewrite Hatob.
  fold url.
  destruct (net _ _) as [driveResponse | e];
    [destruct (json_of driveResponse) |];
    simpl snd; rewrite <- app_assoc; reflexivity.
Qed.

(** ** Headers and fallbacks *)

(** X16.  Every request of a run that has a body declares it as JSON, and
    a request without a body declares no content type. *)
Theorem body_declared_json (context : Context) (sent : list Request) :
  exists new,
    snd (onRequestPost net context sent) = (sent ++ new)%list /\
    forall request,
      In request new ->
      header "Content-Type" request
      = match req_body request with
        | NoBody => None
        | _ => Some "application/json"
        end.
Proof.
  destruct (onRequestPost_sent context sent) as (new & Hsent & Hnew).
  exists new. split; [exact Hsent |]. intros request Hin.
  destruct Hnew as [[-> _] | (token & formData & c & _ & _ & _ & Hnew)];
    [destruct Hin |].
  cbv zeta in Hnew.
  destruct Hnew as [[-> _] | (repo & sha & Hshape & Hnew)].
  - destruct Hin as [<- | [<- | []]]; reflexivity.
  - assert (Hrepo : forall r, In r repo ->
               header "Content-Type" r
               = match req_body r with
                 | NoBody => None
                 | _ => Some "application/json"
                 end).
    { intros r Hr. destruct Hshape as [-> | ->].
      - destruct Hr as [<- | []]; reflexivity.
      - destruct Hr as [<- | [<- | []]]; reflexivity. }
    destruct Hnew
      as [-> | (scriptUrl & decoded & data & _ & _ & _ & _ & ->)];
      apply in_app_or in Hin; destruct Hin as [Hin | Hin];
      try exact (Hrepo request Hin).
    + destruct Hin as [<- | [<- | []]]; reflexivity.
    + destruct Hin as [<- | [<- | [<- | []]]]; reflexivity.
Qed.

(** X15.  An exception without a message is answered with the message
    [Upload failed]: when the [try] block throws an exception whose message
    is empty, the handler answers with status 500 and that text. *)
Theorem empty_message_fallback
  (context : Context) (sent sent' : list Request) (e : Exn) :
  tryBlock net context sent = (Throw e, sent') ->
  exn_message e = EmptyString ->
  onRequestPost net context sent
  = (Ok {| resp_status := 500;
           resp_headers :=
             [ ("Content-Type", "application/json");
               ("Access-Control-Allow-Origin", "*") ];
           resp_body := BodyFailure "Upload failed" |},
     sent').
Proof.
  intros Hthrow Hmessage. unfold onRequestPost, try_catch.
  rewrite Hthrow. unfold ret, errorResponse. rewrite Hmessage. reflexivity.
Qed.

End Coverage.

(** * Further runs on the reference engine *)

Section CoverageRuns.
Import Demo.

Lemma token_confined_witness :
  header "Authorization"
    (driveRequest (R := Engine.reference) script "physics"
       (EString "2024-05-01") "1. A
2. C")
  = None /\
  header "Authorization"
    (github_get
       (fileUrl "iitjeelf" "physics" "answers/answer-key-2024-05-01.txt")
       token)
  = Some "token ghp_0123456789".
Proof.
  destruct (token_confined (R := Engine.reference)
              (scripted [repo_exists; missing; written; drive_done])
              (request answer_form) [])
    as (new & Hsent & Hall).
  vm_compute in Hsent. subst new. split.
  - destruct (Hall (driveRequest (R := Engine.reference) script "physics"
                      (EString "2024-05-01") "1. A
2. C"))
      as [[_ Hnone] | [Hdrive _]].
    + right. right. right. left. reflexivity.
    + exact Hnone.
    + discriminate Hdrive.
  - destruct (Hall (github_get
                      (fileUrl "iitjeelf" "physics"
                         "answers/answer-key-2024-05-01.txt") token))
      as [[Hdrive _] | (_ & _ & token0 & Htoken & Hheader)].
    + right. left. reflexivity.
    + discriminate Hdrive.
    + injection Htoken as <-. exact Hheader.
Defined.

Lemma webhook_implies_success_witness :
  exists data,
    fst (onRequestPost (R := Engine.reference)
           (scripted [repo_exists; missing; written; drive_page])
           (request answer_form) [])
    = Ok (successResponse data) /\
    resp_status (successResponse data) = 200%N.
Proof.
  destruct (webhook_implies_success (R := Engine.reference)
              (scripted [repo_exists; missing; written; drive_page])
              (request answer_form) [])
    as (new & Hsent & Hsuccess).
  vm_compute in Hsent. subst new. apply Hsuccess.
  eexists. split; [right; right; right; left; reflexivity | reflexivity].
Defined.

Lemma success_iff_witness :
  fst (onRequestPost (R := Engine.reference)
         (scripted [repo_exists; file_exists; written])
         (request question_form) [])
  = Ok (successResponse
          {| sd_message := "Uploaded to PHYSICS";
             sd_github :=
               {| res_url :=
                    Some
                      (JStr "https://github.com/iitjeelf/physics/blob/main/f");
                  res_sha :=
                    Some (JStr "7c258f7a0b1b2c1f4a2f9e5d2fbb5b1c0f7d3e11");
                  res_path := "questions/q1.txt" |};
             sd_drive := JNull |}).
Proof.
  apply (proj2 (success_iff (R := Engine.reference)
                  (scripted [repo_exists; file_exists; written])
                  (request question_form) [] _)).
  exists token, question_form, "Physics", true. do 2 eexists.
  split; [reflexivity |]. split; [reflexivity |]. split; [reflexivity |].
  split; [reflexivity |]. split; [reflexivity |]. split; reflexivity.
Defined.

Lemma ensureRepo_returns_iff_witness :
  not_found
    (scripted [missing; written] []
       (github_get (repoUrl "iitjeelf" "physics") token)) /\
  exists found,
    fst (ensureRepo (R := Engine.reference) (scripted [missing; written])
           "iitjeelf" "physics" token [])
    = Ok found.
Proof.
  split; [reflexivity |].
  apply (proj2 (proj1 (ensureRepo_returns_iff (R := Engine.reference)
                         (scripted [missing; written])
                         "iitjeelf" "physics" token []))).
  right. split; [reflexivity |]. eexists. split; reflexivity.
Defined.

Lemma creation_transport_error_witness :
  scripted [missing]
    [github_get (repoUrl "iitjeelf" "physics") token]
    (github_send POST "https://api.github.com/user/repos" token
       (createRepo (R := Engine.reference) "physics"))
  = Throw offline /\
  onRequestPost (R := Engine.reference) (scripted [missing])
    (request question_form) []
  = (Ok {| resp_status := 500;
           resp_headers :=
             [ ("Content-Type", "application/json");
               ("Access-Control-Allow-Origin", "*") ];
           resp_body := BodyFailure "Network connection lost." |},
     [ github_get (repoUrl "iitjeelf" "physics") token;
       github_send POST "https://api.github.com/user/repos" token
         (createRepo (R := Engine.reference) "physics") ]).
Proof.
  split; [reflexivity |].
  exact (proj2 (creation_transport_error (R := Engine.reference)
                  (scripted [missing]) (request question_form) token
                  question_form "Physics" [] offline
                  eq_refl eq_refl eq_refl eq_refl eq_refl)).
Defined.

Lemma failed_write_ends_run_witness :
  snd (onRequestPost (R := Engine.reference)
         (scripted [repo_exists; missing])
         (request answer_form) [])
  = [ github_get (repoUrl "iitjeelf" "physics") token;
      github_get
        (fileUrl "iitjeelf" "physics" "answers/answer-key-2024-05-01.txt")
        token;
      github_send PUT
        (fileUrl "iitjeelf" "physics" "answers/answer-key-2024-05-01.txt")
        token
        (BUpload
           (uploadData "Add answer key for PHYSICS - 2024-05-01"
              (Some (EString "MS4gQQoyLiBD")) (Some JNull))) ] /\
  onRequestPost (R := Engine.reference)
    (scripted [repo_exists; file_exists; conflict])
    (request answer_form) []
  = (Ok {| resp_status := 500;
           resp_headers :=
             [ ("Content-Type", "application/json");
               ("Access-Control-Allow-Origin", "*") ];
           resp_body := BodyFailure "GitHub API error: 409" |},
     [ github_get (repoUrl "iitjeelf" "physics") token;
       github_get
         (fileUrl "iitjeelf" "physics" "answers/answer-key-2024-05-01.txt")
         token;
       github_send PUT
         (fileUrl "iitjeelf" "physics" "answers/answer-key-2024-05-01.txt")
         token
         (BUpload
            (uploadData "Add answer key for PHYSICS - 2024-05-01"
               (Some (EString "MS4gQQoyLiBD"))
               (Some (JStr "95b966ae1c166bd92f8ae7d1c313e738c731dfc3")))) ]).
Proof.
  split.
  - rewrite (proj1 (failed_write_ends_run (R := Engine.reference)
                      (scripted [repo_exists; missing])
                      (request answer_form) token answer_form "Physics"
                      [] _ _ true (Some JNull)
                      eq_refl eq_refl eq_refl eq_refl eq_refl)
               offline eq_refl).
    reflexivity.
  - exact (proj2 (failed_write_ends_run (R := Engine.reference)
                    (scripted [repo_exists; file_exists; conflict])
                    (request answer_form) token answer_form "Physics"
                    [] _ _ true _
                    eq_refl eq_refl eq_refl eq_refl eq_refl)
             _ _ eq_refl eq_refl eq_refl).
Defined.

Lemma webhook_status_ignored_witness :
  scripted [repo_exists; missing; written; drive_error]
    [ github_get (repoUrl "iitjeelf" "physics") token;
      github_get
        (fileUrl "iitjeelf" "physics" "answers/answer-key-2024-05-01.txt")
        token;
      github_send PUT
        (fileUrl "iitjeelf" "physics" "answers/answer-key-2024-05-01.txt")
        token
        (BUpload
           (uploadData "Add answer key for PHYSICS - 2024-05-01"
              (Some (EString "MS4gQQoyLiBD")) (Some JNull))) ]
    (driveRequest (R := Engine.reference) script "physics"
       (EString "2024-05-01") "1. A
2. C")
  = drive_error /\
  exists data,
    fst (onRequestPost (R := Engine.reference)
           (scripted [repo_exists; missing; written; drive_error])
           (request answer_form) [])
    = Ok (successResponse data) /\
    sd_drive data
    = JObj [("success", JBool false); ("error", JStr "quota")].
Proof.
  split; [reflexivity |].
  eexists. split.
  - rewrite (webhook_status_ignored (R := Engine.reference)
               (scripted [repo_exists; missing; written; drive_error])
               (request answer_form) token answer_form "Physics"
               [] _ _ true _ script _ _ _
               eq_refl eq_refl eq_refl eq_refl eq_refl eq_refl eq_refl
               eq_refl eq_refl eq_refl).
    reflexivity.
  - reflexivity.
Defined.

Lemma unreadable_form_fails_witness :
  onRequestPost (R := Engine.reference) (scripted [repo_exists]) unreadable []
  = (Ok {| resp_status := 500;
           resp_headers :=
             [ ("Content-Type", "application/json");
               ("Access-Control-Allow-Origin", "*") ];
           resp_body :=
             BodyFailure "Unrecognized Content-Type header value." |},
     []) /\
  onRequestPost (R := Engine.reference) (scripted [repo_exists])
    (request file_class_form) []
  = (Ok {| resp_status := 500;
           resp_headers :=
             [ ("Content-Type", "application/json");
               ("Access-Control-Allow-Origin", "*") ];
           resp_body := BodyFailure "toLowerCase is not a function" |},
     []).
Proof.
  split.
  - exact (proj1 (unreadable_form_fails (R := Engine.reference)
                    (scripted [repo_exists]) unreadable token [] eq_refl)
             _ eq_refl).
  - exact (proj2 (unreadable_form_fails (R := Engine.reference)
                    (scripted [repo_exists]) (request file_class_form) token
                    [] eq_refl)
             file_class_form eq_refl eq_refl).
Defined.

Lemma question_ignores_date_witness :
  is_answer dated_question_form = false /\
  onRequestPost (R := Engine.reference)
    (scripted [repo_exists; missing; written])
    (request question_form) []
  = onRequestPost (R := Engine.reference)
      (scripted [repo_exists; missing; written])
      {| ctx_env := ctx_env (request question_form);
         ctx_formData := Ok dated_question_form;
         ctx_today := "2025-01-01" |} [].
Proof.
  split; [reflexivity |].
  exact (question_ignores_date (R := Engine.reference)
           (scripted [repo_exists; missing; written])
           (request question_form)
           {| ctx_env := ctx_env (request question_form);
              ctx_formData := Ok dated_question_form;
              ctx_today := "2025-01-01" |}
           question_form dated_question_form []
           eq_refl eq_refl eq_refl eq_refl eq_refl eq_refl eq_refl eq_refl).
Defined.

Lemma answer_ignores_filename_witness :
  is_answer named_answer_form = true /\
  onRequestPost (R := Engine.reference)
    (scripted [repo_exists; missing; written; drive_done])
    (request answer_form) []
  = onRequestPost (R := Engine.reference)
      (scripted [repo_exists; missing; written; drive_done])
      (request named_answer_form) [].
Proof.
  split; [reflexivity |].
  exact (answer_ignores_filename (R := Engine.reference)
           (scripted [repo_exists; missing; written; drive_done])
           (request answer_form) (request named_answer_form)
           answer_form named_answer_form []
           eq_refl eq_refl eq_refl eq_refl eq_refl eq_refl eq_refl eq_refl
           eq_refl).
Defined.

Lemma unusable_success_body_witness :
  uploadFile (R := Engine.reference)
    (scripted [missing; page 200 "<html>ok</html>" not_json])
    "iitjeelf" "physics" "questions/q1.txt" (Some (EString "UTE=")) token
    "Add question: q1.txt to PHYSICS" []
  = (Throw not_json,
     [ github_get (fileUrl "iitjeelf" "physics" "questions/q1.txt") token;
       github_send PUT (fileUrl "iitjeelf" "physics" "questions/q1.txt")
         token
         (BUpload
            (uploadData "Add question: q1.txt to PHYSICS"
               (Some (EString "UTE=")) (Some JNull))) ]) /\
  uploadFile (R := Engine.reference) (scripted [missing; accepted_empty])
    "iitjeelf" "physics" "questions/q1.txt" (Some (EString "UTE=")) token
    "Add question: q1.txt to PHYSICS" []
  = (Throw {| exn_name := "TypeError";
              exn_message :=
                "Cannot read properties of undefined (reading 'html_url')" |},
     [ github_get (fileUrl "iitjeelf" "physics" "questions/q1.txt") token;
       github_send PUT (fileUrl "iitjeelf" "physics" "questions/q1.txt")
         token
         (BUpload
            (uploadData "Add question: q1.txt to PHYSICS"
               (Some (EString "UTE=")) (Some JNull))) ]).
Proof.
  split.
  - exact (proj1 (unusable_success_body (R := Engine.reference)
                    (scripted [missing; page 200 "<html>ok</html>" not_json])
                    "iitjeelf" "physics" "questions/q1.txt"
                    (Some (EString "UTE=")) token
                    "Add question: q1.txt to PHYSICS" [] _ (Some JNull) _
                    eq_refl eq_refl eq_refl)
             not_json eq_refl).
  - exact (proj1 (proj2 (unusable_success_body (R := Engine.reference)
                           (scripted [missing; accepted_empty])
                           "iitjeelf" "physics" "questions/q1.txt"
                           (Some (EString "UTE=")) token
                           "Add question: q1.txt to PHYSICS" [] _
                           (Some JNull) _
                           eq_refl eq_refl eq_refl))
             _ eq_refl eq_refl).
Defined.

Lemma creation_failure_without_message_witness :
  ensureRepo (R := Engine.reference)
    (scripted [missing; page 502 "<html>Bad Gateway</html>" not_json])
    "iitjeelf" "physics" token []
  = (Throw not_json,
     [ github_get (repoUrl "iitjeelf" "physics") token;
       github_send POST "https://api.github.com/user/repos" token
         (createRepo (R := Engine.reference) "physics") ]) /\
  ensureRepo (R := Engine.reference) (scripted [missing; refused])
    "iitjeelf" "physics" token []
  = (Throw {| exn_name := "Error";
              exn_message := "Failed to create repo physics: undefined" |},
     [ github_get (repoUrl "iitjeelf" "physics") token;
       github_send POST "https://api.github.com/user/repos" token
         (createRepo (R := Engine.reference) "physics") ]).
Proof.
  split.
  - exact (proj1 (creation_failure_without_message (R := Engine.reference)
                    (scripted
                       [missing;
                        page 502 "<html>Bad Gateway</html>" not_json])
                    "iitjeelf" "physics" token [] _
                    eq_refl eq_refl eq_refl)
             not_json eq_refl).
  - exact (proj2 (creation_failure_without_message (R := Engine.reference)
                    (scripted [missing; refused])
                    "iitjeelf" "physics" token [] _
                    eq_refl eq_refl eq_refl)
             _ eq_refl eq_refl).
Defined.

Lemma content_absent_proceeds_witness :
  get contentless_form "content" = None /\
  (exists decoded, atob (Runtime := Engine.reference) "null" = Ok decoded) /\
  exists data decoded,
    ud_content data = None /\
    snd (onRequestPost (R := Engine.reference)
           (scripted [repo_exists; missing; written; drive_done])
           (request contentless_form) [])
    = [ github_get (repoUrl "iitjeelf" "physics") token;
        github_get
          (fileUrl "iitjeelf" "physics" "answers/answer-key-2024-05-01.txt")
          token;
        github_send PUT
          (fileUrl "iitjeelf" "physics" "answers/answer-key-2024-05-01.txt")
          token (BUpload data);
        driveRequest (R := Engine.reference) script "physics"
          (EString "2024-05-01") decoded ].
Proof.
  split; [reflexivity |]. split; [eexists; reflexivity |].
  destruct (content_absent_proceeds (R := Engine.reference)
              (scripted [repo_exists; missing; written; drive_done])
              (request contentless_form) token contentless_form "Physics"
              [] _ _ true _ script _
              eq_refl eq_refl eq_refl eq_refl eq_refl eq_refl eq_refl
              eq_refl eq_refl)
    as (data & Hcontent & Hsent).
  exists data. eexists. split; [exact Hcontent | exact Hsent].
Defined.

Lemma empty_message_fallback_witness :
  onRequestPost (R := Engine.reference)
    (scripted
       [missing;
        Throw {| exn_name := "Error"; exn_message := EmptyString |}])
    (request question_form) []
  = (Ok {| resp_status := 500;
           resp_headers :=
             [ ("Content-Type", "application/json");
               ("Access-Control-Allow-Origin", "*") ];
           resp_body := BodyFailure "Upload failed" |},
     [ github_get (repoUrl "iitjeelf" "physics") token;
       github_send POST "https://api.github.com/user/repos" token
         (createRepo (R := Engine.reference) "physics") ]).
Proof.
  exact (empty_message_fallback (R := Engine.reference)
           (scripted
              [missing;
               Throw {| exn_name := "Error"; exn_message := EmptyString |}])
           (request question_form) [] _ _ eq_refl eq_refl).
Defined.

Lemma body_declared_json_witness :
  header "Content-Type"
    (github_send POST "https://api.github.com/user/repos" token
       (createRepo (R := Engine.reference) "physics"))
  = Some "application/json" /\
  header "Content-Type" (github_get (repoUrl "iitjeelf" "physics") token)
  = None.
Proof.
  destruct (body_declared_json (R := Engine.reference)
              (scripted [missing; rejected]) (request question_form) [])
    as (new & Hsent & Hall).
  vm_compute in Hsent. subst new. split.
  - apply (Hall (github_send POST "https://api.github.com/user/repos" token
                   (createRepo (R := Engine.reference) "physics"))).
    right. left. reflexivity.
  - apply (Hall (github_get (repoUrl "iitjeelf" "physics") token)).
    left. reflexivity.
Defined.

End CoverageRuns.
